(** * summarize_doc: the document uploader, the results dashboard and the
      document summary card, as a shallow embedding

    The three React components of the repository are embedded as pure
    functions over explicit component state:

    - [Uploader]   src/components/DocumentUploader.tsx
    - [Dashboard]  src/components/ResultsDashboard.tsx
    - [Summary]    the DocumentSummary component

    Conventions of the embedding.

    - A JavaScript number that counts something (a size in bytes, a number of
      files, the [maxFiles] and [maxSizeMB] props) is an integer [Z]; the
      props are taken to be integers, which JavaScript prints in plain
      decimal.
    - The progress of an upload is a fraction; it is a rational [Q], and
      the sum and the test of the interval callback are taken exactly.  The
      properties below are stated through that sum and that test and
      through the order of progress values, which the monotone rounding of
      floating-point addition keeps; none of them adds draws up on its
      own.
    - Nondeterminism is an explicit argument: [Math.random()] is the [r] of a
      tick, and the identifiers built from [Date.now()] and [Math.random()]
      come from a draw function [ids].
    - A [useState] cell is a field of the component state and a state
      updater [setX(prev => ...)] is applied to that field.
    - A file name is a string of bytes; [toLowerCase] acts on the ASCII
      letters. *)

From Stdlib Require Import String Ascii List ZArith QArith Lia Lqa Bool.
From Stdlib Require Import DecimalString Qround.
Import ListNotations.

Open Scope string_scope.
Open Scope list_scope.
Open Scope Z_scope.

(** ** JavaScript string and array primitives *)

Module Js.

(** [`${n}`] for an integer [n]. *)
Definition numToString (n : Z) : string :=
  NilZero.string_of_int (Z.to_int n).

(** [s.split(sep)] for a one-character separator: never the empty array. *)
Fixpoint split (sep : ascii) (s : string) : list string :=
  match s with
  | EmptyString => [EmptyString]
  | String c rest =>
      if Ascii.eqb c sep then EmptyString :: split sep rest
      else match split sep rest with
           | [] => [String c EmptyString]
           | piece :: pieces => String c piece :: pieces
           end
  end.

(** The value of [a.pop()]: the last element, [undefined] on the empty
    array. *)
Fixpoint pop {A : Type} (a : list A) : option A :=
  match a with
  | [] => None
  | [x] => Some x
  | _ :: rest => pop rest
  end.

Definition lowerAscii (c : ascii) : ascii :=
  let n := nat_of_ascii c in
  if ((65 <=? n) && (n <=? 90))%nat then ascii_of_nat (n + 32) else c.

(** [s.toLowerCase()]. *)
Fixpoint toLowerCase (s : string) : string :=
  match s with
  | EmptyString => EmptyString
  | String c rest => String (lowerAscii c) (toLowerCase rest)
  end.

(** [a.includes(x)] on an array of strings. *)
Definition includes (a : list string) (x : string) : bool :=
  existsb (String.eqb x) a.

(** [a.join(sep)]. *)
Definition join (sep : string) (a : list string) : string :=
  String.concat sep a.

(** [x || d] on an optional string: [undefined] and the empty string are
    falsy. *)
Definition orElse (x : option string) (d : string) : string :=
  match x with
  | None => d
  | Some EmptyString => d
  | Some s => s
  end.

(** [Math.round(x)]: the nearest integer, a tie going up. *)
Definition round (x : Q) : Z := Qfloor (x + (1 # 2)).

End Js.

(** ** DocumentUploader *)

Module Uploader.

(** [status: "uploading" | "success" | "error"] *)
Inductive Status : Type := Uploading | Success | Error.

Definition Status_eqb (a b : Status) : bool :=
  match a, b with
  | Uploading, Uploading | Success, Success | Error, Error => true
  | _, _ => false
  end.

(** The attributes of a platform [File] that the component reads. *)
Record File : Type := { name : string; size : Z }.

(** [interface FileWithPreview extends File].

    [name] and [size] are not properties of the object itself: they are
    accessors on [File.prototype].  [Object.assign(file, {...})] adds [id],
    [progress] and [status] to the platform object, so that entry still
    answers [name] and [size]: [file = Some _].  An object built by the
    object spread [{ ...f, ... }] is a plain object holding the own
    enumerable properties of [f] only: [file = None], and [f.name] is
    [undefined]. *)
Record FileWithPreview : Type := {
  file : option File;
  preview : option string;
  id : string;
  progress : Q;
  status : Status;
  errorMessage : option string
}.

(** The props after destructuring, defaults applied. *)
Record Props : Type := {
  maxFiles : Z;
  maxSizeMB : Z;
  allowedFileTypes : list string;
  isProcessing : bool
}.

(** [DocumentUploaderProps]: every prop is optional. *)
Record DocumentUploaderProps : Type := {
  maxFiles_prop : option Z;
  maxSizeMB_prop : option Z;
  allowedFileTypes_prop : option (list string);
  isProcessing_prop : option bool
}.

Definition withDefault {A : Type} (x : option A) (d : A) : A :=
  match x with Some v => v | None => d end.

(** The destructuring pattern of the component's parameter. *)
Definition destructure (raw : DocumentUploaderProps) : Props :=
  {| maxFiles := withDefault (maxFiles_prop raw) 10;
     maxSizeMB := withDefault (maxSizeMB_prop raw) 10;
     allowedFileTypes :=
       withDefault (allowedFileTypes_prop raw) [".pdf"; ".docx"; ".doc"];
     isProcessing := withDefault (isProcessing_prop raw) false |}.

Definition noProps : DocumentUploaderProps :=
  {| maxFiles_prop := None; maxSizeMB_prop := None;
     allowedFileTypes_prop := None; isProcessing_prop := None |}.

Definition maxSizeBytes (p : Props) : Z := maxSizeMB p * 1024 * 1024.

(** The result of [validateFile]: [{ valid: boolean; error?: string }]. *)
Record Validation : Type := { valid : bool; error : option string }.

(** [`.${file.name.split(".").pop()?.toLowerCase()}`] *)
Definition fileExtension (f : File) : string :=
  "." ++ match Js.pop (Js.split "." (name f)) with
         | Some last => Js.toLowerCase last
         | None => "undefined"
         end.

Definition sizeError (p : Props) : string :=
  "File size exceeds " ++ Js.numToString (maxSizeMB p) ++ "MB limit".

Definition typeError (p : Props) : string :=
  "File type not supported. Allowed types: "
  ++ Js.join ", " (allowedFileTypes p).

Definition countError (p : Props) : string :=
  "Maximum " ++ Js.numToString (maxFiles p) ++ " files allowed".

(** [validateFile]; [files] is the list of the render the closure belongs
    to. *)
Definition validateFile (p : Props) (files : list FileWithPreview)
    (f : File) : Validation :=
  if size f >? maxSizeBytes p then
    {| valid := false; error := Some (sizeError p) |}
  else if negb (Js.includes (allowedFileTypes p) (fileExtension f)) then
    {| valid := false; error := Some (typeError p) |}
  else if Z.of_nat (length files) >=? maxFiles p then
    {| valid := false; error := Some (countError p) |}
  else {| valid := true; error := None |}.

(** Following the spec's words, for comparison with [fileExtension]: whether
    a name contains a dot, and the text after its last dot.  A name without
    a dot has no dot to cut at and is taken whole. *)
Fixpoint hasDot (s : string) : bool :=
  match s with
  | EmptyString => false
  | String c rest => Ascii.eqb c "." || hasDot rest
  end.

Fixpoint textAfterLastDot (s : string) : string :=
  match s with
  | EmptyString => EmptyString
  | String c rest =>
      if hasDot rest then textAfterLastDot rest
      else if Ascii.eqb c "." then rest
      else s
  end.

(** Following the spec's words: the lowercased text after the last dot of
    the file name, prefixed with a dot. *)
Definition allowListKey (f : File) : string :=
  "." ++ Js.toLowerCase (textAfterLastDot (name f)).

(** The files of a list that [validateFile] lets through. *)
Definition accepted (p : Props) (files : list FileWithPreview)
    (fileList : list File) : list File :=
  filter (fun f => valid (validateFile p files f)) fileList.

(** One [setInterval] timer of [simulateUpload]: the id of the file it was
    started for, its local variable [progress], and whether the interval is
    still set ([clearInterval] not yet called). *)
Record Timer : Type := { tid : string; tprogress : Q; running : bool }.

(** The component state: the [files] and [error] cells, the timers started
    so far (the handle of a timer is its position), and the arguments of the
    calls of [onUploadComplete], oldest first. *)
Record State : Type := {
  files : list FileWithPreview;
  errorState : option string;
  timers : list Timer;
  uploadComplete : list (list FileWithPreview)
}.

Definition initial : State :=
  {| files := []; errorState := None; timers := []; uploadComplete := [] |}.

(** [Object.assign(file, { id, progress: 0, status: "uploading" })] *)
Definition assignNew (f : File) (newId : string) : FileWithPreview :=
  {| file := Some f; preview := None; id := newId; progress := 0%Q;
     status := Uploading; errorMessage := None |}.

(** [simulateUpload(file)] up to its first tick: [let progress = 0] and the
    interval set. *)
Definition simulateUpload (f : FileWithPreview) : Timer :=
  {| tid := id f; tprogress := 0%Q; running := true |}.

(** What one call of [processFiles] accumulates over the [forEach]: the
    array [newFiles], the last [setError], the timers started, and the
    number of identifiers drawn. *)
Record Batch : Type := {
  newFiles : list FileWithPreview;
  lastError : option string;
  started : list Timer;
  drawn : nat
}.

(** The body of the [forEach] callback. *)
Definition processOne (p : Props) (files : list FileWithPreview)
    (ids : nat -> string) (b : Batch) (f : File) : Batch :=
  let validation := validateFile p files f in
  if negb (valid validation) then
    {| newFiles := newFiles b;
       lastError := Some (Js.orElse (error validation) "Invalid file");
       started := started b;
       drawn := drawn b |}
  else
    let newFile := assignNew f (ids (drawn b)) in
    {| newFiles := newFiles b ++ [newFile];
       lastError := lastError b;
       started := started b ++ [simulateUpload newFile];
       drawn := S (drawn b) |}.

Definition emptyBatch : Batch :=
  {| newFiles := []; lastError := None; started := []; drawn := 0 |}.

Definition forEachFile (p : Props) (files : list FileWithPreview)
    (ids : nat -> string) (fileList : list File) : Batch :=
  fold_left (processOne p files ids) fileList emptyBatch.

(** [processFiles(fileList)]; [null] leaves everything as it is. *)
Definition processFiles (p : Props) (ids : nat -> string) (s : State)
    (fileList : option (list File)) : State :=
  match fileList with
  | None => s
  | Some l =>
      let b := forEachFile p (files s) ids l in
      {| files := if (0 <? length (newFiles b))%nat
                  then files s ++ newFiles b else files s;
         errorState := lastError b;
         timers := timers s ++ started b;
         uploadComplete := uploadComplete s |}
  end.

(** The object spread [{ ...f }]: a new plain object with the own
    enumerable properties of [f].  The accessors of [File.prototype] are not
    among them. *)
Definition spread (f : FileWithPreview) : FileWithPreview :=
  {| file := None; preview := preview f; id := id f; progress := progress f;
     status := status f; errorMessage := errorMessage f |}.

(** [{ ...f, progress }] *)
Definition withProgress (f : FileWithPreview) (pr : Q) : FileWithPreview :=
  let o := spread f in
  {| file := file o; preview := preview o; id := id o; progress := pr;
     status := status o; errorMessage := errorMessage o |}.

(** [{ ...f, progress, status: "success" }] *)
Definition withSuccess (f : FileWithPreview) (pr : Q) : FileWithPreview :=
  let o := spread f in
  {| file := file o; preview := preview o; id := id o; progress := pr;
     status := Success; errorMessage := errorMessage o |}.

(** The updater of the completing branch:
    [prev.map((f) => f.id === file.id ? { ...f, progress, status: "success" } : f)] *)
Definition markSuccess (fileId : string) (pr : Q)
    (prev : list FileWithPreview) : list FileWithPreview :=
  map (fun f => if String.eqb (id f) fileId then withSuccess f pr else f) prev.

(** The updater of the other branch:
    [prev.map((f) => (f.id === file.id ? { ...f, progress } : f))] *)
Definition markProgress (fileId : string) (pr : Q)
    (prev : list FileWithPreview) : list FileWithPreview :=
  map (fun f => if String.eqb (id f) fileId then withProgress f pr else f) prev.

(** [updatedFiles.every((f) => f.status === "success")] *)
Definition allUploaded (updatedFiles : list FileWithPreview) : bool :=
  forallb (fun f => Status_eqb (status f) Success) updatedFiles.

(** What one run of the interval callback does: the timer after it, the
    list after its [setFiles], and the argument of [onUploadComplete] when
    it is called.  [r] is the value of [Math.random()]. *)
Record TickResult : Type := {
  timerAfter : Timer;
  filesAfter : list FileWithPreview;
  completed : option (list FileWithPreview)
}.

Definition intervalCallback (t : Timer) (r : Q)
    (prev : list FileWithPreview) : TickResult :=
  let pr := (tprogress t + r * 10)%Q in
  if Qle_bool 100 pr then
    let pr := 100%Q in
    let updatedFiles := markSuccess (tid t) pr prev in
    {| timerAfter := {| tid := tid t; tprogress := pr; running := false |};
       filesAfter := updatedFiles;
       completed := if allUploaded updatedFiles then Some updatedFiles
                    else None |}
  else
    {| timerAfter := {| tid := tid t; tprogress := pr; running := true |};
       filesAfter := markProgress (tid t) pr prev;
       completed := None |}.

(** Replace the element at position [k]. *)
Fixpoint setNth {A : Type} (k : nat) (x : A) (l : list A) : list A :=
  match l, k with
  | [], _ => []
  | _ :: rest, O => x :: rest
  | y :: rest, S k' => y :: setNth k' x rest
  end.

(** The interval of timer [k] fires.  A cleared interval never fires. *)
Definition tick (k : nat) (r : Q) (s : State) : State :=
  match nth_error (timers s) k with
  | Some t =>
      if running t then
        let res := intervalCallback t r (files s) in
        {| files := filesAfter res;
           errorState := errorState s;
           timers := setNth k (timerAfter res) (timers s);
           uploadComplete :=
             match completed res with
             | Some fs => uploadComplete s ++ [fs]
             | None => uploadComplete s
             end |}
      else s
  | None => s
  end.

(** [removeFile(id)]: [prev.filter((file) => file.id !== id)] *)
Definition removeFile (fileId : string) (s : State) : State :=
  {| files := filter (fun f => negb (String.eqb (id f) fileId)) (files s);
     errorState := errorState s;
     timers := timers s;
     uploadComplete := uploadComplete s |}.

(** What can happen to the mounted component. *)
Inductive Event : Type :=
| ProcessFiles (fileList : option (list File)) (ids : nat -> string)
| Tick (k : nat) (r : Q)
| RemoveFile (fileId : string).

Definition step (p : Props) (s : State) (e : Event) : State :=
  match e with
  | ProcessFiles fileList ids => processFiles p ids s fileList
  | Tick k r => tick k r s
  | RemoveFile fileId => removeFile fileId s
  end.

Definition run (p : Props) (s : State) (es : list Event) : State :=
  fold_left (step p) es s.

(** A draw function for examples: [file-0], [file-1], ... *)
Definition countingIds (n : nat) : string :=
  "file-" ++ Js.numToString (Z.of_nat n).

(** The props of the overrun example: [maxFiles={2}], the rest default. *)
Definition twoFilesAtMost : Props :=
  destructure {| maxFiles_prop := Some 2; maxSizeMB_prop := None;
                 allowedFileTypes_prop := None; isProcessing_prop := None |}.

Definition threePdfs : list File :=
  [ {| name := "a.pdf"; size := 1 |};
    {| name := "b.pdf"; size := 1 |};
    {| name := "c.pdf"; size := 1 |} ].

(** A status may stay as it is or go from [Uploading] to [Success]. *)
Definition statusMove (a b : Status) : Prop :=
  a = b \/ (a = Uploading /\ b = Success).

(** How the list after an event relates to the list before it, entry by
    entry. *)
Definition listMove (e : Event) (before after : list FileWithPreview)
    : Prop :=
  match e with
  | ProcessFiles _ _ =>
      exists added,
        after = before ++ added
        /\ Forall (fun f => status f = Uploading /\ progress f = 0%Q) added
  | Tick _ _ =>
      Forall2 (fun f f' => id f' = id f /\ statusMove (status f) (status f'))
              before after
  | RemoveFile fileId =>
      after = filter (fun f => negb (String.eqb (id f) fileId)) before
  end.

(** The entries [processFiles] makes of the files it accepts, the first
    with the [k]-th identifier drawn. *)
Fixpoint entriesFrom (ids : nat -> string) (k : nat) (l : list File)
    : list FileWithPreview :=
  match l with
  | [] => []
  | f :: rest => assignNew f (ids k) :: entriesFrom ids (S k) rest
  end.

(** An entry and the timer started for it agree: same id, same progress,
    and the entry is [Uploading] below 100 while the interval is set and
    [Success] at 100 once it is cleared. *)
Definition linked (f : FileWithPreview) (t : Timer) : Prop :=
  tid t = id f
  /\ progress f = tprogress t
  /\ (0 <= tprogress t)%Q
  /\ if running t
     then status f = Uploading /\ (tprogress t < 100)%Q
     else status f = Success /\ tprogress t = 100%Q.

(** The state is consistent: no two timers and no two entries share an id,
    and every entry has its timer. *)
Definition consistent (s : State) : Prop :=
  NoDup (map tid (timers s))
  /\ NoDup (map id (files s))
  /\ forall f, In f (files s) -> exists t, In t (timers s) /\ linked f t.

(** The first [n] identifiers drawn are new: distinct from one another and
    from the id of every timer started so far. *)
Definition freshIds (s : State) (ids : nat -> string) (n : nat) : Prop :=
  NoDup (map ids (seq 0 n))
  /\ forall i, (i < n)%nat -> ~ In (ids i) (map tid (timers s)).

(** What the environment guarantees of an event: [Math.random()] lies in
    [0, 1), and the identifiers given to the files of a batch are new. *)
Definition admissible (p : Props) (s : State) (e : Event) : Prop :=
  match e with
  | ProcessFiles (Some l) ids =>
      freshIds s ids (length (accepted p (files s) l))
  | ProcessFiles None _ => True
  | Tick _ r => (0 <= r)%Q /\ (r < 1)%Q
  | RemoveFile _ => True
  end.

Fixpoint admissibleRun (p : Props) (s : State) (es : list Event) : Prop :=
  match es with
  | [] => True
  | e :: rest => admissible p s e /\ admissibleRun p (step p s e) rest
  end.

(** Some run of the component, from its initial state, shows a file with
    status [st]. *)
Definition reachableStatus (st : Status) : Prop :=
  exists (p : Props) (es : list Event) (f : FileWithPreview),
    In f (files (run p initial es)) /\ status f = st.

(** One file dropped on the default component, then eleven ticks of its
    timer with [Math.random()] at 0.99. *)
Definition oneUpload : list Event :=
  ProcessFiles (Some [ {| name := "a.pdf"; size := 1 |} ]) countingIds
  :: repeat (Tick 0 (99 # 100)) 11.

(** One file dropped on the default component and two ticks of its timer
    with [Math.random()] at 0.5. *)
Definition dropAndTick : list Event :=
  [ ProcessFiles (Some [ {| name := "a.pdf"; size := 1 |} ]) countingIds;
    Tick 0 (1 # 2) ].

Definition secondTick : Event := Tick 0 (1 # 2).

(** What a tick may do to one entry: nothing, or rebuild it with the same
    own properties apart from [progress] and [status]. *)
Definition rebuilt (f f' : FileWithPreview) : Prop :=
  file f' = None
  /\ preview f' = preview f
  /\ id f' = id f
  /\ errorMessage f' = errorMessage f
  /\ (status f' = status f \/ status f' = Success).

(** *** The Summarize button *)

Definition hasStatus (st : Status) (f : FileWithPreview) : bool :=
  Status_eqb (status f) st.

(** The [disabled] attribute of the button. *)
Definition summarizeDisabled (p : Props) (fs : list FileWithPreview) : bool :=
  isProcessing p
  || existsb (hasStatus Uploading) fs
  || (length (filter (hasStatus Success) fs) =? 0)%nat.

(** The [onClick] handler: the argument of [onSummarize] when it is
    called. *)
Definition summarizeOnClick (fs : list FileWithPreview)
    : option (list FileWithPreview) :=
  let successfulFiles := filter (hasStatus Success) fs in
  if (0 <? length successfulFiles)%nat then Some successfulFiles else None.

(** The button is rendered under [files.length > 0]. *)
Definition summarizeRendered (fs : list FileWithPreview) : bool :=
  (0 <? length fs)%nat.

(** A click on the button: a button that is not rendered or is disabled
    runs no handler. *)
Definition clickSummarize (p : Props) (s : State)
    : option (list FileWithPreview) :=
  if summarizeRendered (files s) && negb (summarizeDisabled p (files s))
  then summarizeOnClick (files s)
  else None.

(** *** What the list shows, and measures of a run *)

(** The line under the name of an entry:
    [file.status === "uploading" ? `Uploading... ${Math.round(file.progress)}%`
     : file.status === "success" ? "Upload complete" : "Upload failed"] *)
Definition statusText (f : FileWithPreview) : string :=
  match status f with
  | Uploading =>
      "Uploading... " ++ Js.numToString (Js.round (progress f)) ++ "%"
  | Success => "Upload complete"
  | Error => "Upload failed"
  end.

(** The files of a list that [validateFile] turns down. *)
Definition rejected (p : Props) (files : list FileWithPreview)
    (fileList : list File) : list File :=
  filter (fun f => negb (valid (validateFile p files f))) fileList.

(** Whether a string holds one of the letters [A] to [Z]. *)
Fixpoint hasAsciiUpper (s : string) : bool :=
  match s with
  | EmptyString => false
  | String c rest =>
      let n := nat_of_ascii c in
      ((65 <=? n) && (n <=? 90))%nat || hasAsciiUpper rest
  end.

(** An entry of [allowedFileTypes] that some file name can match: a dot,
    then text with no further dot and none of the letters [A] to [Z]. *)
Definition matchableType (e : string) : bool :=
  match e with
  | String c body =>
      Ascii.eqb c "." && negb (hasDot body) && negb (hasAsciiUpper body)
  | EmptyString => false
  end.

(** Every [FileList] of the run holds at most one file. *)
Definition oneFileAtATime (es : list Event) : Prop :=
  Forall (fun e => match e with
                   | ProcessFiles (Some l) _ => (length l <= 1)%nat
                   | _ => True
                   end) es.

(** The values of [Math.random()] at the ticks of timer [k], in order. *)
Definition ticksOf (k : nat) (es : list Event) : list Q :=
  flat_map (fun e => match e with
                     | Tick k' r => if Nat.eqb k' k then [r] else []
                     | _ => []
                     end) es.

(** Four one-byte files dropped one after the other on [twoFilesAtMost]. *)
Definition fourDrops : list Event :=
  map (fun n => ProcessFiles (Some [ {| name := n; size := 1 |} ])
                               (fun _ => ("file-" ++ n)%string))
      ["a.pdf"; "b.pdf"; "c.pdf"; "d.pdf"].

End Uploader.

(** ** The document types shared by the dashboard and the summary card *)

Module Doc.

(** [importance: "high" | "medium" | "low"] *)
Inductive Importance : Type := high | medium | low.

(** The string a level is at run time. *)
Definition tag (i : Importance) : string :=
  match i with
  | high => "high"
  | medium => "medium"
  | low => "low"
  end.

Record Highlight : Type := { text : string; importance : Importance }.

Record Entity : Type := { name : string; type : string }.

Record Metadata : Type := {
  tags : list string;
  keyInsights : list string;
  entities : list Entity
}.

End Doc.

(** ** DocumentSummary *)

Module Summary.

(** The [document] prop of [DocumentSummaryProps]. *)
Record Document : Type := {
  id : string;
  title : string;
  originalFileName : string;
  summary : string;
  fullText : string;
  highlights : list Doc.Highlight;
  metadata : Doc.Metadata;
  processedDate : string
}.

(** [getHighlightColor], on the run-time value of its argument: the
    [switch] compares strings and has a [default] branch. *)
Definition getHighlightColor (importance : string) : string :=
  if String.eqb importance "high" then
    "bg-red-100 border-l-4 border-red-500"
  else if String.eqb importance "medium" then
    "bg-yellow-100 border-l-4 border-yellow-500"
  else if String.eqb importance "low" then
    "bg-blue-100 border-l-4 border-blue-500"
  else "bg-gray-100".

(** [`p-3 rounded-md ${getHighlightColor(highlight.importance)}`] *)
Definition highlightClassName (h : Doc.Highlight) : string :=
  "p-3 rounded-md " ++ getHighlightColor (Doc.tag (Doc.importance h)).

(** Whether [needle] occurs in [s]. *)
Fixpoint occursIn (needle s : string) : bool :=
  String.prefix needle s
  || match s with
     | EmptyString => false
     | String _ rest => occursIn needle rest
     end.

End Summary.

(** ** ResultsDashboard *)

Module Dashboard.

(** [interface Document]; [title?: string] may be absent. *)
Record Document : Type := {
  id : string;
  title : option string;
  originalFileName : string;
  summary : string;
  fullText : string;
  metadata : Doc.Metadata;
  highlights : list Doc.Highlight;
  processedDate : string
}.

(** [ResultsDashboardProps], the [documents] prop; the callbacks carry no
    data. *)
Record ResultsDashboardProps : Type := {
  documents_prop : option (list Document)
}.

(** The default value of the [documents] parameter. *)
Definition sampleDocuments : list Document :=
  [ {| id := "1";
       title := Some "Sample Document";
       originalFileName := "Sample Document.pdf";
       summary :=
         "This is a sample document summary that highlights the key points from the document. It provides a concise overview of the main topics covered.";
       fullText :=
         "Lorem ipsum dolor sit amet, consectetur adipiscing elit. Nullam euismod, nisl eget aliquam ultricies, nunc nisl aliquet nunc, vitae aliquam nisl nunc vitae nisl. Nullam euismod, nisl eget aliquam ultricies, nunc nisl aliquet nunc, vitae aliquam nisl nunc vitae nisl.";
       metadata :=
         {| Doc.tags := ["Contract"; "Legal"; "Agreement"];
            Doc.keyInsights :=
              ["Payment terms defined in section 3.2";
               "Termination clause on page 5";
               "Non-compete for 24 months"];
            Doc.entities :=
              [ {| Doc.name := "Acme Corp"; Doc.type := "Organization" |};
                {| Doc.name := "John Doe"; Doc.type := "Person" |};
                {| Doc.name := "Jane Smith"; Doc.type := "Person" |} ] |};
       highlights :=
         [ {| Doc.text :=
                "Payment must be made within 30 days of invoice receipt";
              Doc.importance := Doc.high |};
           {| Doc.text :=
                "Either party may terminate with 60 days written notice";
              Doc.importance := Doc.medium |};
           {| Doc.text :=
                "All disputes shall be resolved through arbitration";
              Doc.importance := Doc.low |} ];
       processedDate := "2023-06-15T14:30:00Z" |};
    {| id := "2";
       title := Some "Business Proposal";
       originalFileName := "Business Proposal.docx";
       summary :=
         "A business proposal for expanding operations into the European market, with financial projections and implementation timeline.";
       fullText :=
         "Detailed business proposal text would appear here with multiple paragraphs of content...";
       metadata :=
         {| Doc.tags := ["Business"; "Proposal"; "Expansion"];
            Doc.keyInsights :=
              ["â‚¬2.5M initial investment";
               "18-month timeline";
               "Focus on Germany and France"];
            Doc.entities :=
              [ {| Doc.name := "Global Enterprises";
                   Doc.type := "Organization" |};
                {| Doc.name := "European Union"; Doc.type := "Organization" |};
                {| Doc.name := "Frankfurt Office"; Doc.type := "Location" |} ] |};
       highlights :=
         [ {| Doc.text := "Projected ROI of 22% within first 24 months";
              Doc.importance := Doc.high |};
           {| Doc.text := "Hiring of 15 local staff required in Q1";
              Doc.importance := Doc.medium |};
           {| Doc.text := "Regulatory approval expected by Q3";
              Doc.importance := Doc.medium |} ];
       processedDate := "2023-06-10T09:15:00Z" |} ].

(** The [documents] the component works on: the default applies when the
    prop is omitted, and only then. *)
Definition documents (props : ResultsDashboardProps) : list Document :=
  match documents_prop props with
  | Some ds => ds
  | None => sampleDocuments
  end.

(** The initial value of the [activeDocument] cell:
    [documents[0]?.id], or the empty string when that is falsy *)
Definition initialActiveDocument (props : ResultsDashboardProps) : string :=
  Js.orElse (option_map id (nth_error (documents props) 0)) EmptyString.

(** [documents.find((doc) => doc.id === activeDocument)] *)
Definition currentDocument (props : ResultsDashboardProps)
    (activeDocument : string) : option Document :=
  find (fun doc => String.eqb (id doc) activeDocument) (documents props).

(** The ids of the entries of the side list, [documents.map(...)] with
    [key={doc.id}]. *)
Definition tabKeys (props : ResultsDashboardProps) : list string :=
  map id (documents props).

(** The heading of the content area:
    [currentDocument.title || currentDocument.originalFileName] *)
Definition heading (d : Document) : string :=
  Js.orElse (title d) (originalFileName d).

(** The label of a side-list entry: [doc.originalFileName || doc.title] *)
Definition tabLabel (d : Document) : option string :=
  match originalFileName d with
  | EmptyString => title d
  | s => Some s
  end.

(** A document as a caller may pass it: no [title]. *)
Definition untitledDocument : Document :=
  {| id := "7";
     title := None;
     originalFileName := "minutes.docx";
     summary := "Minutes of the meeting.";
     fullText := "The meeting opened at nine.";
     metadata := {| Doc.tags := []; Doc.keyInsights := [];
                    Doc.entities := [] |};
     highlights := [];
     processedDate := "2024-01-01T00:00:00Z" |}.

Definition untitledOnly : ResultsDashboardProps :=
  {| documents_prop := Some [untitledDocument] |}.

(** *** The state of the dashboard and its handlers *)

(** The cells [activeDocument], [promptDialogOpen], [promptType] and
    [promptText]. *)
Record State : Type := {
  activeDocument : string;
  promptDialogOpen : bool;
  promptType : string;
  promptText : string
}.





(** The values of the three options of the prompt-type select. *)
Inductive PromptOption : Type := summarization | legal | compliance.

Definition optionValue (o : PromptOption) : string :=
  match o with
  | summarization => "summarization"
  | legal => "legal"
  | compliance => "compliance"
  end.

(** The own properties of [promptTemplates]. *)
Definition promptTemplates : list (string * string) :=
  [ ("summarization",
     "Summarize the key points of this document in 3-5 sentences.");
    ("legal",
     "Extract legal obligations, rights, and potential liabilities from this document.");
    ("compliance",
     "Identify compliance requirements and regulatory considerations in this document.") ].

Fixpoint lookup (key : string) (o : list (string * string))
    : option string :=
  match o with
  | [] => None
  | (k, v) :: rest => if String.eqb k key then Some v else lookup key rest
  end.

(** [handlePromptSelect(type)], for the values the select can send and any
    other string that names no property of a plain object. *)
Definition handlePromptSelect (type : string) (st : State) : State :=
  {| activeDocument := activeDocument st;
     promptDialogOpen := promptDialogOpen st;
     promptType := type;
     promptText := Js.orElse (lookup type promptTemplates) EmptyString |}.

(** The change of the textarea: [setPromptText(e.target.value)] *)
Definition editPrompt (text : string) (st : State) : State :=
  {| activeDocument := activeDocument st;
     promptDialogOpen := promptDialogOpen st;
     promptType := promptType st;
     promptText := text |}.

(** [handlePromptSave]: the arguments of [onUpdatePrompt] and the state
    after. *)
Definition handlePromptSave (st : State) : (string * string) * State :=
  ((promptType st, promptText st),
   {| activeDocument := activeDocument st;
      promptDialogOpen := false;
      promptType := promptType st;
      promptText := promptText st |}).


End Dashboard.

(** * Properties *)

(** ** Strings *)

Module JsFacts.
Import Js.

Lemma split_nonempty (sep : ascii) (s : string) : split sep s <> [].
Proof.
  destruct s as [|c rest]; simpl; [discriminate|].
  destruct (Ascii.eqb c sep); [discriminate|].
  destruct (split sep rest); discriminate.
Qed.

Lemma pop_cons {A : Type} (x : A) (l : list A) :
  l <> [] -> pop (x :: l) = pop l.
Proof. destruct l; [congruence | reflexivity]. Qed.

Lemma split_without_sep (s : string) :
  Uploader.hasDot s = false -> split "." s = [s].
Proof.
  induction s as [|c rest IH]; simpl; [reflexivity|].
  intros H. apply orb_false_iff in H. destruct H as [Hc Hr].
  rewrite Hc, (IH Hr). reflexivity.
Qed.

Lemma split_with_sep (s : string) :
  Uploader.hasDot s = true -> exists a b l, split "." s = a :: b :: l.
Proof.
  induction s as [|c rest IH]; simpl; [discriminate|].
  destruct (Ascii.eqb c ".") eqn:Hc; simpl.
  - intros _. destruct (split "." rest) as [|b l] eqn:E.
    + exfalso. exact (split_nonempty _ _ E).
    + now exists EmptyString, b, l.
  - intros Hr. destruct (IH Hr) as (a & b & l & E).
    rewrite E. now exists (String c a), b, l.
Qed.

End JsFacts.

(** ** validateFile and processFiles *)

Module UploaderFacts.
Import Uploader.

Lemma textAfterLastDot_no_dot (s : string) :
  hasDot s = false -> textAfterLastDot s = s.
Proof.
  destruct s as [|c rest]; simpl; [reflexivity|].
  intros H. apply orb_false_iff in H. destruct H as [Hc Hr].
  now rewrite Hr, Hc.
Qed.

Lemma textAfterLastDot_cut (pre suf : string) :
  hasDot suf = false ->
  textAfterLastDot (pre ++ String "." suf)%string = suf.
Proof.
  intros Hs. induction pre as [|c pre IH]; simpl.
  - now rewrite Hs.
  - assert (Hd : hasDot (pre ++ String "." suf)%string = true).
    { clear IH. induction pre as [|d pre IHp]; simpl; [reflexivity|].
      rewrite IHp. apply orb_true_r. }
    now rewrite Hd.
Qed.

(** [split(".").pop()] is the text after the last dot. *)
Lemma pop_split_textAfterLastDot (s : string) :
  Js.pop (Js.split "." s) = Some (textAfterLastDot s).
Proof.
  induction s as [|c rest IH]; [reflexivity|].
  cbn [Js.split textAfterLastDot].
  destruct (Ascii.eqb c ".") eqn:Hc.
  - rewrite JsFacts.pop_cons by apply JsFacts.split_nonempty.
    rewrite IH. destruct (hasDot rest) eqn:Hr; [reflexivity|].
    now rewrite textAfterLastDot_no_dot.
  - destruct (hasDot rest) eqn:Hr.
    + destruct (JsFacts.split_with_sep rest Hr) as (a & b & l & E).
      rewrite <- IH, E. reflexivity.
    + now rewrite (JsFacts.split_without_sep rest Hr).
Qed.

Lemma fileExtension_spec (f : File) :
  fileExtension f =
  ("." ++ Js.toLowerCase (textAfterLastDot (name f)))%string.
Proof.
  unfold fileExtension. now rewrite pop_split_textAfterLastDot.
Qed.

Lemma includes_In (a : list string) (x : string) :
  Js.includes a x = true <-> In x a.
Proof.
  unfold Js.includes. rewrite existsb_exists. split.
  - intros (y & Hy & E). apply String.eqb_eq in E. now subst.
  - intros H. exists x. split; [assumption | apply String.eqb_refl].
Qed.

(** The three error texts differ, whatever the props. *)
Lemma typeError_not_countError (p : Props) : typeError p <> countError p.
Proof. unfold typeError, countError. simpl. discriminate. Qed.

Lemma sizeError_not_typeError (p : Props) : sizeError p <> typeError p.
Proof. unfold typeError, sizeError. simpl. discriminate. Qed.

(** What [forEach] collects, for any starting accumulator. *)
Lemma fold_processOne_newFiles (p : Props) (fs : list FileWithPreview)
    (ids : nat -> string) (l : list File) (b : Batch) :
  map file (newFiles (fold_left (processOne p fs ids) l b)) =
  map file (newFiles b) ++ map Some (accepted p fs l).
Proof.
  revert b. induction l as [|f l IH]; intros b; simpl.
  - now rewrite app_nil_r.
  - rewrite IH. unfold processOne.
    destruct (valid (validateFile p fs f)); simpl.
    + now rewrite map_app, <- app_assoc.
    + reflexivity.
Qed.

Lemma forEachFile_newFiles (p : Props) (fs : list FileWithPreview)
    (ids : nat -> string) (l : list File) :
  map file (newFiles (forEachFile p fs ids l)) = map Some (accepted p fs l).
Proof. unfold forEachFile. now rewrite fold_processOne_newFiles. Qed.

(** [processFiles] appends [newFiles] to the list, in both branches of its
    last test. *)
Lemma processFiles_files (p : Props) (ids : nat -> string) (s : State)
    (l : list File) :
  files (processFiles p ids s (Some l)) =
  files s ++ newFiles (forEachFile p (files s) ids l).
Proof.
  simpl. destruct (newFiles (forEachFile p (files s) ids l)); simpl.
  - now rewrite app_nil_r.
  - reflexivity.
Qed.

Lemma processFiles_length (p : Props) (ids : nat -> string) (s : State)
    (l : list File) :
  length (files (processFiles p ids s (Some l))) =
  (length (files s) + length (accepted p (files s) l))%nat.
Proof.
  rewrite processFiles_files, length_app.
  rewrite <- (length_map file (newFiles _)), forEachFile_newFiles.
  now rewrite length_map.
Qed.

(** An entry of the list after [processFiles] was there before or was made
    from a file of the batch that [validateFile] let through. *)
Lemma processFiles_entries (p : Props) (ids : nat -> string) (s : State)
    (l : list File) (x : FileWithPreview) :
  In x (files (processFiles p ids s (Some l))) ->
  In x (files s) \/
  exists f, file x = Some f /\ In f l /\
            valid (validateFile p (files s) f) = true.
Proof.
  rewrite processFiles_files, in_app_iff. intros [H | H]; [now left | right].
  apply (in_map file) in H. rewrite forEachFile_newFiles in H.
  apply in_map_iff in H. destruct H as (f & E & Hf).
  apply filter_In in Hf. exists f. now rewrite E.
Qed.

Lemma validateFile_too_big (p : Props) (fs : list FileWithPreview)
    (f : File) :
  size f > maxSizeBytes p ->
  validateFile p fs f = {| valid := false; error := Some (sizeError p) |}.
Proof.
  intros H. unfold validateFile.
  destruct (Z.gtb_spec (size f) (maxSizeBytes p)); [reflexivity | lia].
Qed.

Lemma validateFile_full (p : Props) (fs : list FileWithPreview) (f : File) :
  Z.of_nat (length fs) >= maxFiles p ->
  valid (validateFile p fs f) = false.
Proof.
  intros H. unfold validateFile.
  destruct (size f >? maxSizeBytes p); [reflexivity|].
  destruct (Js.includes _ _); [|reflexivity]. simpl.
  destruct (Z.geb_spec (Z.of_nat (length fs)) (maxFiles p));
    [reflexivity | lia].
Qed.

(** A list that already holds [maxFiles] entries takes no further file. *)
Lemma processFiles_full (p : Props) (ids : nat -> string) (s : State)
    (l : list File) :
  Z.of_nat (length (files s)) >= maxFiles p ->
  files (processFiles p ids s (Some l)) = files s.
Proof.
  intros H. rewrite processFiles_files.
  assert (E : accepted p (files s) l = []).
  { unfold accepted. induction l as [|f l IH]; [reflexivity|].
    simpl. now rewrite validateFile_full. }
  pose proof (forEachFile_newFiles p (files s) ids l) as Hn.
  rewrite E in Hn. destruct (newFiles _); [apply app_nil_r | discriminate].
Qed.

(** C2 (size ceiling).  A file whose type and count checks pass is rejected
    by [validateFile] exactly when its size is strictly above
    [maxSizeMB * 1024 * 1024] bytes.  A file above the ceiling is rejected
    with the text [File size exceeds <maxSizeMB>MB limit], whatever the other
    checks would say, and [processFiles] adds no entry for it: offered
    alone, it leaves the list as it was and sets the error; offered in any
    batch, every entry for it in the list afterwards was there before. *)
Theorem validateFile_size_ceiling (p : Props) (fs : list FileWithPreview)
    (f : File) :
  maxSizeBytes p = maxSizeMB p * 1024 * 1024
  /\ (Js.includes (allowedFileTypes p) (fileExtension f) = true ->
      Z.of_nat (length fs) < maxFiles p ->
      (valid (validateFile p fs f) = false <-> size f > maxSizeBytes p))
  /\ (size f > maxSizeBytes p ->
      validateFile p fs f =
        {| valid := false;
           error := Some ("File size exceeds "
                          ++ Js.numToString (maxSizeMB p)
                          ++ "MB limit")%string |}
      /\ (forall ids s,
            files (processFiles p ids s (Some [f])) = files s
            /\ errorState (processFiles p ids s (Some [f])) =
               Some ("File size exceeds "
                     ++ Js.numToString (maxSizeMB p) ++ "MB limit")%string)
      /\ (forall ids s l x,
            In x (files (processFiles p ids s (Some l))) ->
            file x = Some f -> In x (files s))).
Proof.
  split; [reflexivity|]. split.
  - intros Hext Hcount. unfold validateFile. rewrite Hext. simpl.
    destruct (Z.gtb_spec (size f) (maxSizeBytes p)) as [Hgt | Hle]; simpl.
    + split; [lia | reflexivity].
    + destruct (Z.geb_spec (Z.of_nat (length fs)) (maxFiles p)); [lia|].
      simpl. split; [discriminate | lia].
  - intros Hgt. split; [now apply validateFile_too_big|]. split.
    + intros ids s. simpl. unfold forEachFile, processOne. simpl.
      rewrite (validateFile_too_big p (files s) f Hgt). simpl.
      split; reflexivity.
    + intros ids s l x Hin Hx.
      destruct (processFiles_entries p ids s l x Hin)
        as [Hold | (f' & Hf' & _ & Hv)]; [assumption|].
      rewrite Hx in Hf'. injection Hf' as <-.
      rewrite (validateFile_too_big p (files s) f Hgt) in Hv. discriminate.
Qed.

(** The ceiling is strict: with the default props a file of exactly
    10 * 1024 * 1024 bytes passes and one byte more is refused. *)
Lemma validateFile_size_ceiling_witness :
  let p := destructure noProps in
  let atCeiling := {| name := "report.pdf"; size := 10485760 |} in
  let above := {| name := "report.pdf"; size := 10485761 |} in
  (valid (validateFile p [] atCeiling) = false <->
   size atCeiling > maxSizeBytes p)
  /\ validateFile p [] atCeiling = {| valid := true; error := None |}
  /\ validateFile p [] above =
     {| valid := false; error := Some "File size exceeds 10MB limit" |}
  /\ files (processFiles p countingIds initial (Some [above])) = [].
Proof.
  intros p atCeiling above.
  destruct (validateFile_size_ceiling p [] above) as (_ & _ & Habove).
  destruct (validateFile_size_ceiling p [] atCeiling) as (_ & Hiff & _).
  assert (Hgt : size above > maxSizeBytes p) by reflexivity.
  destruct (Habove Hgt) as (Hv & Hone & _).
  split; [apply Hiff; reflexivity|].
  split; [reflexivity|]. split; [exact Hv|].
  exact (proj1 (Hone countingIds initial)).
Defined.

(** C3 (extension allow-list).  The extension [validateFile] computes is the
    lowercased text after the last dot of the name, prefixed with a dot (for
    a name [pre.suf] with no dot in [suf] that is [.suf] lowercased; a name
    without a dot is taken whole).  A file that passes the size check passes
    the type check exactly when that key is a member of [allowedFileTypes]:
    then the count check alone decides the result; otherwise the file is
    rejected with the text that lists the allowed types, joined by a comma
    and a space.  The default list is [.pdf], [.docx], [.doc]. *)
Theorem validateFile_extension_allow_list (p : Props)
    (fs : list FileWithPreview) (f : File) :
  fileExtension f = allowListKey f
  /\ (forall pre suf,
        name f = (pre ++ String "." suf)%string -> hasDot suf = false ->
        allowListKey f = ("." ++ Js.toLowerCase suf)%string)
  /\ (size f <= maxSizeBytes p ->
      (In (allowListKey f) (allowedFileTypes p) ->
       validateFile p fs f =
         if Z.of_nat (length fs) >=? maxFiles p
         then {| valid := false; error := Some (countError p) |}
         else {| valid := true; error := None |})
      /\ (~ In (allowListKey f) (allowedFileTypes p) ->
          validateFile p fs f =
            {| valid := false;
               error := Some ("File type not supported. Allowed types: "
                              ++ Js.join ", " (allowedFileTypes p))%string |})
      /\ (validateFile p fs f =
            {| valid := false; error := Some (typeError p) |}
          <-> ~ In (allowListKey f) (allowedFileTypes p)))
  /\ allowedFileTypes (destructure noProps) = [".pdf"; ".docx"; ".doc"].
Proof.
  split; [apply fileExtension_spec|]. split.
  { intros pre suf Hn Hs. unfold allowListKey.
    now rewrite Hn, textAfterLastDot_cut. }
  split; [|reflexivity].
  intros Hsize.
  assert (Hin : In (allowListKey f) (allowedFileTypes p) ->
                validateFile p fs f =
                if Z.of_nat (length fs) >=? maxFiles p
                then {| valid := false; error := Some (countError p) |}
                else {| valid := true; error := None |}).
  { intros H. unfold validateFile.
    destruct (Z.gtb_spec (size f) (maxSizeBytes p)); [lia|].
    rewrite fileExtension_spec. fold (allowListKey f).
    now rewrite (proj2 (includes_In _ _) H). }
  assert (Hout : ~ In (allowListKey f) (allowedFileTypes p) ->
                 validateFile p fs f =
                 {| valid := false; error := Some (typeError p) |}).
  { intros H. unfold validateFile.
    destruct (Z.gtb_spec (size f) (maxSizeBytes p)); [lia|].
    rewrite fileExtension_spec. fold (allowListKey f).
    destruct (Js.includes (allowedFileTypes p) (allowListKey f)) eqn:E;
      [|reflexivity].
    exfalso. apply H. now apply includes_In. }
  split; [exact Hin|]. split; [exact Hout|]. split; [|exact Hout].
  intros Hv Hmem. rewrite (Hin Hmem) in Hv.
  destruct (Z.of_nat (length fs) >=? maxFiles p); [|discriminate].
  apply (typeError_not_countError p). congruence.
Qed.

(** With the default props: an upper-case extension is accepted, a double
    extension is judged on its last part, and the refusal names the three
    allowed types. *)
Lemma validateFile_extension_allow_list_witness :
  let p := destructure noProps in
  let upper := {| name := "Report.final.PDF"; size := 1 |} in
  let tarball := {| name := "archive.pdf.gz"; size := 1 |} in
  allowListKey upper = ".pdf"
  /\ validateFile p [] upper = {| valid := true; error := None |}
  /\ validateFile p [] tarball =
     {| valid := false;
        error := Some
          "File type not supported. Allowed types: .pdf, .docx, .doc" |}.
Proof.
  intros p upper tarball.
  destruct (validateFile_extension_allow_list p [] upper)
    as (_ & Hcut & Hup & _).
  destruct (validateFile_extension_allow_list p [] tarball)
    as (_ & _ & Htar & _).
  assert (Hs1 : size upper <= maxSizeBytes p) by discriminate.
  assert (Hs2 : size tarball <= maxSizeBytes p) by discriminate.
  destruct (Hup Hs1) as (Hacc & _). destruct (Htar Hs2) as (_ & Hrej & _).
  split; [exact (Hcut "Report.final" "PDF" eq_refl eq_refl)|].
  split.
  - apply Hacc. vm_compute. tauto.
  - apply Hrej. vm_compute. intros [H | [H | [H | []]]]; discriminate H.
Defined.

(** A name without a dot is taken whole: with the default props a file
    called [pdf] passes the type check. *)
Lemma validateFile_name_without_dot :
  validateFile (destructure noProps) [] {| name := "pdf"; size := 1 |} =
  {| valid := true; error := None |}.
Proof. reflexivity. Qed.

(** C1 (file-count ceiling), evaluated where it fails.  [validateFile]
    compares [maxFiles] with the length of the list of the current render,
    which does not grow while one [FileList] is being walked: with
    [maxFiles = 2] and an empty list, one drop of three files adds all
    three, sets no error, and leaves the list longer than [maxFiles]: the
    ceiling is not an invariant of the runs of the component. *)
Theorem processFiles_batch_overruns_maxFiles :
  let s := run twoFilesAtMost initial
               [ProcessFiles (Some threePdfs) countingIds] in
  map file (files s) = map Some threePdfs
  /\ map id (files s) = ["file-0"; "file-1"; "file-2"]
  /\ errorState s = None
  /\ Z.of_nat (length (files s)) > maxFiles twoFilesAtMost
  /\ ~ (forall es : list Event,
          Z.of_nat (length (files (run twoFilesAtMost initial es)))
          <= maxFiles twoFilesAtMost).
Proof.
  repeat split.
  intros H.
  specialize (H [ProcessFiles (Some threePdfs) countingIds]).
  vm_compute in H. now apply H.
Qed.

(** The ceiling holds only against the list of the render: any batch of
    files that pass [validateFile] is added whole. *)
Lemma processFiles_adds_whole_batch (p : Props) (ids : nat -> string)
    (s : State) (l : list File) :
  Forall (fun f => valid (validateFile p (files s) f) = true) l ->
  map file (files (processFiles p ids s (Some l))) =
  map file (files s) ++ map Some l.
Proof.
  intros H. rewrite processFiles_files, map_app, forEachFile_newFiles.
  f_equal. f_equal. unfold accepted.
  induction H as [|f l Hf _ IH]; [reflexivity|].
  simpl. now rewrite Hf, IH.
Qed.

(** *** Status transitions *)

Lemma Status_eqb_eq (a b : Status) : Status_eqb a b = true <-> a = b.
Proof. destruct a, b; simpl; split; congruence. Qed.

Lemma forEach_new_entries (p : Props) (fs : list FileWithPreview)
    (ids : nat -> string) (l : list File) (b : Batch) :
  Forall (fun f => status f = Uploading /\ progress f = 0%Q) (newFiles b) ->
  Forall (fun f => status f = Uploading /\ progress f = 0%Q)
         (newFiles (fold_left (processOne p fs ids) l b)).
Proof.
  revert b. induction l as [|f l IH]; intros b Hb; simpl; [assumption|].
  apply IH. unfold processOne.
  destruct (valid (validateFile p fs f)); simpl; [|assumption].
  apply Forall_app. split; [assumption|]. now repeat constructor.
Qed.

(** Every file enters the list as [Uploading], progress 0. *)
Lemma processFiles_move (p : Props) (ids : nat -> string) (s : State)
    (fileList : option (list File)) :
  listMove (ProcessFiles fileList ids) (files s)
           (files (processFiles p ids s fileList)).
Proof.
  destruct fileList as [l|].
  - exists (newFiles (forEachFile p (files s) ids l)).
    split; [apply processFiles_files|].
    apply forEach_new_entries. constructor.
  - exists []. simpl. now rewrite app_nil_r.
Qed.

Lemma markSuccess_move (i : string) (pr : Q) (l : list FileWithPreview) :
  Forall (fun f => status f <> Error) l ->
  Forall2 (fun f f' => id f' = id f /\ statusMove (status f) (status f'))
          l (markSuccess i pr l).
Proof.
  induction 1 as [|f l Hf _ IH]; simpl; constructor; [|exact IH].
  destruct (String.eqb (id f) i); simpl.
  - split; [reflexivity|]. destruct (status f).
    + right. now split.
    + now left.
    + contradiction.
  - split; [reflexivity | now left].
Qed.

Lemma markProgress_move (i : string) (pr : Q) (l : list FileWithPreview) :
  Forall2 (fun f f' => id f' = id f /\ statusMove (status f) (status f'))
          l (markProgress i pr l).
Proof.
  induction l as [|f l IH]; simpl; constructor; [|exact IH].
  destruct (String.eqb (id f) i); simpl; split;
    try reflexivity; now left.
Qed.

Lemma Forall2_same {A : Type} (R : A -> A -> Prop) (l : list A) :
  (forall x, R x x) -> Forall2 R l l.
Proof. intros HR. induction l; constructor; auto. Qed.

(** The three things a tick can do to the list. *)
Lemma tick_files (k : nat) (r : Q) (s : State) :
  files (tick k r s) = files s
  \/ (exists t, nth_error (timers s) k = Some t /\ running t = true
       /\ Qle_bool 100 (tprogress t + r * 10) = true
       /\ files (tick k r s) = markSuccess (tid t) 100 (files s))
  \/ (exists t, nth_error (timers s) k = Some t /\ running t = true
       /\ Qle_bool 100 (tprogress t + r * 10) = false
       /\ files (tick k r s) =
          markProgress (tid t) (tprogress t + r * 10) (files s)).
Proof.
  unfold tick. destruct (nth_error (timers s) k) as [t|]; [|now left].
  destruct (running t) eqn:Hrun; [|now left].
  unfold intervalCallback.
  destruct (Qle_bool 100 (tprogress t + r * 10)) eqn:Hdone; simpl.
  - right. left. now exists t.
  - right. right. now exists t.
Qed.

Lemma tick_move (k : nat) (r : Q) (s : State) :
  Forall (fun f => status f <> Error) (files s) ->
  listMove (Tick k r) (files s) (files (tick k r s)).
Proof.
  intros Hs. simpl.
  destruct (tick_files k r s) as [E | [(t & _ & _ & _ & E) | (t & _ & _ & _ & E)]];
    rewrite E.
  - apply Forall2_same. intros x. split; [reflexivity | now left].
  - now apply markSuccess_move.
  - apply markProgress_move.
Qed.

(** Each event moves the list as [listMove] says, from a list without an
    [Error] entry. *)
Lemma step_move (p : Props) (s : State) (e : Event) :
  Forall (fun f => status f <> Error) (files s) ->
  listMove e (files s) (files (step p s e)).
Proof.
  intros Hs. destruct e as [fileList ids | k r | fileId].
  - apply processFiles_move.
  - now apply tick_move.
  - reflexivity.
Qed.

Lemma listMove_no_error (e : Event) (before after : list FileWithPreview) :
  listMove e before after ->
  Forall (fun f => status f <> Error) before ->
  Forall (fun f => status f <> Error) after.
Proof.
  destruct e as [fileList ids | k r | fileId]; simpl.
  - intros (added & -> & Hadd) Hb. apply Forall_app. split; [assumption|].
    eapply Forall_impl; [|exact Hadd]. intros f [Hf _]. congruence.
  - intros H2 Hb. induction H2 as [|f f' l l' [_ Hm] _ IH]; constructor.
    + inversion Hb; subst. destruct Hm as [<- | [_ ->]];
        [assumption | discriminate].
    + apply IH. now inversion Hb.
  - intros -> Hb. apply Forall_forall. intros f Hf.
    apply filter_In in Hf. destruct Hf as [Hf _].
    exact (proj1 (Forall_forall _ _) Hb f Hf).
Qed.

(** A property kept by every step holds along every run. *)
Lemma run_invariant (p : Props) (P : State -> Prop) :
  (forall s e, P s -> P (step p s e)) ->
  forall es s, P s -> P (run p s es).
Proof.
  intros Hstep es. induction es as [|e es IH]; intros s Hs; simpl.
  - assumption.
  - apply IH. now apply Hstep.
Qed.

Lemma run_app (p : Props) (s : State) (es es' : list Event) :
  run p s (es ++ es') = run p (run p s es) es'.
Proof. apply fold_left_app. Qed.

(** No operation of the component writes [Error]. *)
Lemma no_error_reachable (p : Props) (es : list Event) :
  Forall (fun f => status f <> Error) (files (run p initial es)).
Proof.
  apply (run_invariant p
           (fun s => Forall (fun f => status f <> Error) (files s))).
  - intros s e Hs. exact (listMove_no_error e _ _ (step_move p s e Hs) Hs).
  - constructor.
Qed.

Lemma oneUpload_ends_in_success :
  files (run (destructure noProps) initial oneUpload) =
  [ {| file := None; preview := None; id := "file-0"; progress := 100%Q;
       status := Success; errorMessage := None |} ].
Proof. vm_compute. reflexivity. Qed.

Lemma success_reachable : reachableStatus Success.
Proof.
  exists (destructure noProps), oneUpload.
  rewrite oneUpload_ends_in_success.
  eexists. split; [left; reflexivity | reflexivity].
Qed.

(** C5 as stated fails in its last part: the [Error] outcome is not a
    reachable transition.  No run of the component ever shows a file with
    status [Error]. *)
Lemma error_outcome_unreachable : ~ reachableStatus Error.
Proof.
  intros (p & es & f & Hin & Hst).
  exact (proj1 (Forall_forall _ _) (no_error_reachable p es) f Hin Hst).
Qed.

(** C5, amended (per-file status state machine).  Along every run from the
    initial state, each event changes the list as [listMove] says: a call
    of [processFiles] appends entries that are all [Uploading] at progress
    0 and leaves the earlier entries as they are; a tick keeps every
    position and its id, and the status at a position stays or goes from
    [Uploading] to [Success]; a removal keeps the other entries as they
    are.  So a status that is [Success] stays [Success].  [Success] is
    reachable; [Error] is never written, and no list of any run holds an
    [Error] entry. *)
Theorem status_state_machine (p : Props) (es : list Event) (e : Event) :
  listMove e (files (run p initial es)) (files (run p initial (es ++ [e])))
  /\ (forall a b, statusMove a b -> a = Success -> b = Success)
  /\ (forall a b, statusMove a b -> a <> b -> a = Uploading /\ b = Success)
  /\ reachableStatus Success
  /\ Forall (fun f => status f = Uploading \/ status f = Success)
            (files (run p initial (es ++ [e]))).
Proof.
  split.
  { rewrite run_app. simpl. apply step_move, no_error_reachable. }
  split. { intros a b [<- | [-> _]] H; [assumption | discriminate]. }
  split. { intros a b [<- | H] Hne; [contradiction | assumption]. }
  split; [exact success_reachable|].
  eapply Forall_impl; [|apply no_error_reachable].
  intros f. cbv beta. destruct (status f); intros Hf;
    [now left | now right | now elim Hf].
Qed.

(** *** Timers and entries *)

Lemma fold_processOne_shape (p : Props) (fs : list FileWithPreview)
    (ids : nat -> string) (l : list File) (b : Batch) :
  newFiles (fold_left (processOne p fs ids) l b) =
    newFiles b ++ entriesFrom ids (drawn b) (accepted p fs l)
  /\ started (fold_left (processOne p fs ids) l b) =
     started b
     ++ map simulateUpload (entriesFrom ids (drawn b) (accepted p fs l)).
Proof.
  revert b. induction l as [|f l IH]; intros b; simpl.
  - now rewrite !app_nil_r.
  - destruct (IH (processOne p fs ids b f)) as [E1 E2].
    rewrite E1, E2. unfold processOne.
    destruct (valid (validateFile p fs f)); simpl.
    + now rewrite <- !app_assoc.
    + split; reflexivity.
Qed.

Lemma processFiles_shape (p : Props) (ids : nat -> string) (s : State)
    (l : list File) :
  files (processFiles p ids s (Some l)) =
    files s ++ entriesFrom ids 0 (accepted p (files s) l)
  /\ timers (processFiles p ids s (Some l)) =
     timers s
     ++ map simulateUpload (entriesFrom ids 0 (accepted p (files s) l)).
Proof.
  rewrite processFiles_files. simpl. unfold forEachFile.
  destruct (fold_processOne_shape p (files s) ids l emptyBatch) as [E1 E2].
  rewrite E1, E2. split; reflexivity.
Qed.

Lemma entriesFrom_ids (ids : nat -> string) (k : nat) (l : list File) :
  map id (entriesFrom ids k l) = map ids (seq k (length l)).
Proof.
  revert k. induction l as [|f l IH]; intros k; simpl; [reflexivity|].
  now rewrite IH.
Qed.

Lemma simulateUpload_ids (l : list FileWithPreview) :
  map tid (map simulateUpload l) = map id l.
Proof. rewrite map_map. reflexivity. Qed.

Lemma entriesFrom_linked (ids : nat -> string) (k : nat) (l : list File)
    (f : FileWithPreview) :
  In f (entriesFrom ids k l) -> linked f (simulateUpload f).
Proof.
  revert k. induction l as [|f0 l IH]; intros k; simpl; [contradiction|].
  intros [<- | H]; [|exact (IH _ H)].
  unfold linked. simpl. repeat split; try reflexivity; discriminate.
Qed.

(** In a list without two equal images, an element is known by its
    image. *)
Lemma NoDup_map_eq {A B : Type} (g : A -> B) (l : list A) (a b : A) :
  NoDup (map g l) -> In a l -> In b l -> g a = g b -> a = b.
Proof.
  induction l as [|x l IH]; simpl; [contradiction|].
  intros Hnd Ha Hb E. inversion Hnd as [|? ? Hx Hl]; subst.
  destruct Ha as [-> | Ha], Hb as [-> | Hb].
  - reflexivity.
  - exfalso. apply Hx. rewrite E. now apply in_map.
  - exfalso. apply Hx. rewrite <- E. now apply in_map.
  - now apply IH.
Qed.

Lemma NoDup_map_filter {A B : Type} (g : A -> B) (h : A -> bool)
    (l : list A) :
  NoDup (map g l) -> NoDup (map g (filter h l)).
Proof.
  induction l as [|x l IH]; simpl; [trivial|].
  intros Hnd. inversion Hnd as [|? ? Hx Hl]; subst.
  destruct (h x); simpl; [|now apply IH].
  constructor; [|now apply IH].
  intros Hin. apply Hx. apply in_map_iff in Hin.
  destruct Hin as (y & E & Hy). apply filter_In in Hy.
  rewrite <- E. apply in_map. tauto.
Qed.

Lemma setNth_map {A B : Type} (g : A -> B) (k : nat) (x y : A)
    (l : list A) :
  nth_error l k = Some x -> g y = g x -> map g (setNth k y l) = map g l.
Proof.
  revert k. induction l as [|z l IH]; intros [|k]; simpl; try discriminate.
  - intros [= ->] E. now rewrite E.
  - intros H E. now rewrite (IH k H E).
Qed.

Lemma setNth_In_new {A : Type} (k : nat) (x y : A) (l : list A) :
  nth_error l k = Some x -> In y (setNth k y l).
Proof.
  revert k. induction l as [|z l IH]; intros [|k]; simpl; try discriminate.
  - now left.
  - intros H. right. exact (IH k H).
Qed.

Lemma setNth_In_other {A : Type} (k : nat) (x y a : A) (l : list A) :
  nth_error l k = Some x -> In a l -> a <> x -> In a (setNth k y l).
Proof.
  revert k. induction l as [|z l IH]; intros [|k]; simpl; try discriminate.
  - intros [= ->] [-> | H] Hne; [contradiction | now right].
  - intros Hk [-> | H] Hne; [now left | right; now apply (IH k)].
Qed.

Lemma setNth_In {A : Type} (k : nat) (y a : A) (l : list A) :
  In a (setNth k y l) -> a = y \/ In a l.
Proof.
  revert k. induction l as [|z l IH]; intros [|k]; simpl; try tauto.
  - intros [-> | H]; tauto.
  - intros [-> | H]; [tauto|]. destruct (IH k H); tauto.
Qed.

Lemma markSuccess_ids (i : string) (pr : Q) (l : list FileWithPreview) :
  map id (markSuccess i pr l) = map id l.
Proof.
  unfold markSuccess. rewrite map_map. apply map_ext.
  intros f. now destruct (String.eqb (id f) i).
Qed.

Lemma markProgress_ids (i : string) (pr : Q) (l : list FileWithPreview) :
  map id (markProgress i pr l) = map id l.
Proof.
  unfold markProgress. rewrite map_map. apply map_ext.
  intros f. now destruct (String.eqb (id f) i).
Qed.

(** What a running tick does to the timers. *)
Lemma tick_timers (k : nat) (r : Q) (s : State) (t : Timer) :
  nth_error (timers s) k = Some t -> running t = true ->
  timers (tick k r s) =
  setNth k (timerAfter (intervalCallback t r (files s))) (timers s)
  /\ tid (timerAfter (intervalCallback t r (files s))) = tid t.
Proof.
  intros Hk Hrun. unfold tick. rewrite Hk, Hrun. simpl. split; [reflexivity|].
  unfold intervalCallback. now destruct (Qle_bool 100 (tprogress t + r * 10)).
Qed.

Lemma tick_idle (k : nat) (r : Q) (s : State) :
  (forall t, nth_error (timers s) k = Some t -> running t = false) ->
  tick k r s = s.
Proof.
  intros H. unfold tick. destruct (nth_error (timers s) k) as [t|];
    [|reflexivity].
  now rewrite (H t eq_refl).
Qed.

Lemma Qle_bool_false (x y : Q) : Qle_bool x y = false -> (y < x)%Q.
Proof.
  intros H. apply Qnot_le_lt. intros Hle.
  apply Qle_bool_iff in Hle. congruence.
Qed.

Lemma consistent_initial : consistent initial.
Proof.
  unfold consistent, initial. simpl.
  split; [constructor|]. split; [constructor|]. intros f [].
Qed.

Lemma consistent_processFiles (p : Props) (ids : nat -> string) (s : State)
    (l : list File) :
  consistent s ->
  freshIds s ids (length (accepted p (files s) l)) ->
  consistent (processFiles p ids s (Some l)).
Proof.
  intros (Ht & Hf & Hl) (Hnd & Hfresh).
  destruct (processFiles_shape p ids s l) as [E1 E2].
  unfold consistent. rewrite E1, E2.
  pose proof (entriesFrom_ids ids 0 (accepted p (files s) l)) as Hids.
  assert (Hnew : forall a,
             In a (map ids (seq 0 (length (accepted p (files s) l)))) ->
             ~ In a (map tid (timers s))).
  { intros a Ha. apply in_map_iff in Ha. destruct Ha as (i & <- & Hi).
    apply in_seq in Hi. apply Hfresh. lia. }
  split; [|split].
  - rewrite map_app, simulateUpload_ids, Hids.
    apply NoDup_app; [assumption | assumption |].
    intros a Ha Hb. exact (Hnew a Hb Ha).
  - rewrite map_app, Hids. apply NoDup_app; [assumption | assumption |].
    intros a Ha Hb. apply (Hnew a Hb).
    apply in_map_iff in Ha. destruct Ha as (f & <- & Hin).
    destruct (Hl f Hin) as (t & Hint & (Etid & _)).
    rewrite <- Etid. now apply in_map.
  - intros f Hin. apply in_app_iff in Hin. destruct Hin as [Hin | Hin].
    + destruct (Hl f Hin) as (t & Hint & Hlk). exists t.
      split; [apply in_app_iff; now left | assumption].
    + exists (simulateUpload f).
      split; [apply in_app_iff; right; now apply in_map|].
      exact (entriesFrom_linked ids 0 _ f Hin).
Qed.

Lemma consistent_tick (k : nat) (r : Q) (s : State) :
  consistent s -> (0 <= r)%Q -> consistent (tick k r s).
Proof.
  intros (Ht & Hf & Hl) Hr.
  destruct (nth_error (timers s) k) as [t|] eqn:Hk.
  2: { rewrite tick_idle; [now repeat split|].
       intros t Ht'. congruence. }
  destruct (running t) eqn:Hrun.
  2: { rewrite tick_idle; [now repeat split|].
       intros t' Ht'. congruence. }
  assert (Hint : In t (timers s)) by (eapply nth_error_In; eassumption).
  unfold tick. rewrite Hk, Hrun. unfold intervalCallback.
  destruct (Qle_bool 100 (tprogress t + r * 10)) eqn:Hdone;
    unfold consistent; simpl.
  - split; [erewrite setNth_map; [exact Ht | exact Hk | reflexivity]|].
    split; [now rewrite markSuccess_ids|].
    intros f' Hin. apply in_map_iff in Hin. destruct Hin as (f & <- & Hin).
    destruct (Hl f Hin) as (t0 & Hint0 & Hlk).
    destruct (String.eqb_spec (id f) (tid t)) as [E | E].
    + eexists. split; [eapply setNth_In_new; eassumption|].
      unfold linked. simpl. repeat split; try reflexivity.
      * now symmetry.
      * discriminate.
    + exists t0. split; [|assumption].
      apply (setNth_In_other k t _ t0 _ Hk Hint0).
      intros ->. destruct Hlk as (Etid & _). congruence.
  - apply Qle_bool_false in Hdone.
    split; [erewrite setNth_map; [exact Ht | exact Hk | reflexivity]|].
    split; [now rewrite markProgress_ids|].
    intros f' Hin. apply in_map_iff in Hin. destruct Hin as (f & <- & Hin).
    destruct (Hl f Hin) as (t0 & Hint0 & Hlk).
    destruct (String.eqb_spec (id f) (tid t)) as [E | E].
    + assert (t0 = t).
      { apply (NoDup_map_eq tid (timers s)); try assumption.
        destruct Hlk as (Etid & _). congruence. }
      subst t0. destruct Hlk as (_ & _ & Hpos & Hst).
      rewrite Hrun in Hst. destruct Hst as [Hup _].
      eexists. split; [eapply setNth_In_new; eassumption|].
      unfold linked. simpl. repeat split; try assumption.
      * now symmetry.
      * lra.
    + exists t0. split; [|assumption].
      apply (setNth_In_other k t _ t0 _ Hk Hint0).
      intros ->. destruct Hlk as (Etid & _). congruence.
Qed.

Lemma consistent_removeFile (i : string) (s : State) :
  consistent s -> consistent (removeFile i s).
Proof.
  intros (Ht & Hf & Hl). unfold consistent, removeFile. simpl.
  split; [assumption|]. split; [now apply NoDup_map_filter|].
  intros f Hin. apply filter_In in Hin. now apply Hl.
Qed.

Lemma consistent_step (p : Props) (s : State) (e : Event) :
  consistent s -> admissible p s e -> consistent (step p s e).
Proof.
  intros Hs Ha. destruct e as [[l|] ids | k r | i]; simpl in *.
  - now apply consistent_processFiles.
  - assumption.
  - now apply consistent_tick.
  - now apply consistent_removeFile.
Qed.

Lemma consistent_run (p : Props) (es : list Event) (s : State) :
  consistent s -> admissibleRun p s es -> consistent (run p s es).
Proof.
  revert s. induction es as [|e es IH]; intros s Hs Ha; simpl in *.
  - assumption.
  - destruct Ha as [Ha Hrest]. apply IH; [|assumption].
    now apply consistent_step.
Qed.



(** What consistency says of one entry. *)
Lemma consistent_entry (s : State) (f : FileWithPreview) :
  consistent s -> In f (files s) ->
  (0 <= progress f)%Q /\ (progress f <= 100)%Q
  /\ (status f = Success <-> (progress f == 100)%Q)
  /\ exists t, In t (timers s) /\ tid t = id f
               /\ tprogress t = progress f
               /\ (running t = false <-> status f = Success).
Proof.
  intros (_ & _ & Hl) Hf.
  destruct (Hl f Hf) as (t & Hint & (Etid & Epr & Hpos & Hst)).
  rewrite Epr. destruct (running t) eqn:Hrun.
  - destruct Hst as [Hup Hlt].
    split; [assumption|]. split; [now apply Qlt_le_weak|]. split.
    + split; [congruence|]. intros E. rewrite E in Hlt.
      now apply Qlt_irrefl in Hlt.
    + exists t. rewrite Hrun, Hup. repeat split; congruence.
  - destruct Hst as [Hsu E100].
    split; [assumption|]. rewrite E100. split; [apply Qle_refl|]. split.
    + split; intros _; [reflexivity | assumption].
    + exists t. rewrite Hrun, Hsu.
      repeat split; try assumption; congruence.
Qed.

Lemma setNth_same {A : Type} (k : nat) (x y : A) (l : list A) :
  nth_error l k = Some y -> nth_error (setNth k x l) k = Some x.
Proof.
  revert k. induction l as [|z l IH]; intros [|k]; simpl; try discriminate.
  - reflexivity.
  - apply IH.
Qed.

(** The entries that carry the id of a timer, in a consistent state. *)
Lemma consistent_timer_entries (s : State) (k : nat) (t : Timer)
    (f : FileWithPreview) :
  consistent s -> nth_error (timers s) k = Some t ->
  In f (files s) -> id f = tid t -> linked f t.
Proof.
  intros (Hnd & _ & Hl) Hk Hf Hid.
  destruct (Hl f Hf) as (t0 & Hin0 & Hlk).
  assert (t0 = t); [|now subst].
  apply (NoDup_map_eq tid (timers s)); try assumption.
  - eapply nth_error_In; eassumption.
  - destruct Hlk as (E & _). congruence.
Qed.





Lemma dropAndTick_admissible :
  admissibleRun (destructure noProps) initial (dropAndTick ++ [secondTick]).
Proof.
  simpl. split; [|split; [|split]]; try exact I.
  - split.
    + repeat constructor. simpl. tauto.
    + simpl. tauto.
  - split; [discriminate | reflexivity].
  - split; [discriminate | reflexivity].
Defined.




(** The hypothesis on identifiers is needed: two files that were given the
    same id share every tick, and the progress shown for them can drop. *)
Lemma shared_id_progress_drops :
  let sameId := fun _ : nat => "file-x" in
  let drop := fun n => ProcessFiles
                (Some [ {| name := n; size := 1 |} ]) sameId in
  let before := run (destructure noProps) initial
                    [drop "a.pdf"; drop "b.pdf"; Tick 0 (9 # 10)] in
  let after := run (destructure noProps) before [Tick 1 (1 # 10)] in
  map progress (files before) = [(0 + (9 # 10) * 10)%Q; (0 + (9 # 10) * 10)%Q]
  /\ map progress (files after)
     = [(0 + (1 # 10) * 10)%Q; (0 + (1 # 10) * 10)%Q].
Proof. split; reflexivity. Qed.

(** *** The frame of a tick *)

(** A tick keeps the length and the order of the list; an entry whose id is
    not the timer's is left as it is, and an entry whose id is the timer's
    is rebuilt. *)
Lemma tick_frame (k : nat) (r : Q) (s : State) :
  length (files (tick k r s)) = length (files s)
  /\ map id (files (tick k r s)) = map id (files s)
  /\ (files (tick k r s) = files s
      \/ exists t,
           nth_error (timers s) k = Some t
           /\ Forall2 (fun f f' =>
                         if String.eqb (id f) (tid t) then rebuilt f f'
                         else f' = f)
                      (files s) (files (tick k r s))).
Proof.
  destruct (tick_files k r s)
    as [E | [(t & Hk & _ & _ & E) | (t & Hk & _ & _ & E)]]; rewrite E.
  - repeat split. now left.
  - split; [apply length_map|]. split; [apply markSuccess_ids|].
    right. exists t. split; [assumption|].
    clear E. induction (files s) as [|f l IH]; simpl; [constructor|].
    constructor; [|exact IH].
    destruct (String.eqb (id f) (tid t)); [|reflexivity].
    unfold rebuilt. simpl. repeat split. now right.
  - split; [apply length_map|]. split; [apply markProgress_ids|].
    right. exists t. split; [assumption|].
    clear E. induction (files s) as [|f l IH]; simpl; [constructor|].
    constructor; [|exact IH].
    destruct (String.eqb (id f) (tid t)); [|reflexivity].
    unfold rebuilt. simpl. repeat split. now left.
Qed.

(** C10 (per-tick frame), evaluated where it fails.  The entry that
    [processFiles] puts in the list is the platform [File] itself and
    answers [name] and [size]; the first tick of its timer replaces it by
    an object spread, which carries [id], [progress] and [status] only:
    the name and the size of the matching entry are gone, while its id and
    status, the length of the list and the other entry are as before. *)
Theorem tick_drops_file_attributes :
  let a := {| name := "a.pdf"; size := 1 |} in
  let b := {| name := "b.pdf"; size := 2 |} in
  let before := run (destructure noProps) initial
                    [ProcessFiles (Some [a; b]) countingIds] in
  let after := run (destructure noProps) before [Tick 0 (1 # 2)] in
  map file (files before) = [Some a; Some b]
  /\ map file (files after) = [None; Some b]
  /\ map id (files after) = map id (files before)
  /\ map status (files after) = map status (files before)
  /\ map progress (files after) = [(0 + (1 # 2) * 10)%Q; 0%Q].
Proof. repeat split. Qed.

(** *** The Summarize button *)

Lemma filter_nonempty_length {A : Type} (g : A -> bool) (l : list A) :
  (0 <? length (filter g l))%nat = true <-> exists x, In x l /\ g x = true.
Proof.
  rewrite Nat.ltb_lt. split.
  - destruct (filter g l) as [|x l'] eqn:E; simpl; [lia|]. intros _.
    exists x. apply filter_In. rewrite E. now left.
  - intros (x & Hx & Hg). assert (H : In x (filter g l))
      by (apply filter_In; now split).
    destruct (filter g l); [contradiction | simpl; lia].
Qed.

(** C9 (summarize gating).  A click calls [onSummarize] exactly when the
    component is not processing, no file is [Uploading] and some file is
    [Success]; the argument is then the files of the list whose status is
    [Success], in order, and it is not empty.  While [isProcessing] holds,
    while some file is [Uploading], or while no file is [Success], the
    button is disabled (or not rendered at all) and a click calls
    nothing. *)
Theorem summarize_gating (p : Props) (s : State) :
  (forall arg,
     clickSummarize p s = Some arg <->
     arg = filter (fun f => Status_eqb (status f) Success) (files s)
     /\ arg <> []
     /\ isProcessing p = false
     /\ (forall f, In f (files s) -> status f <> Uploading))
  /\ (forall arg, clickSummarize p s = Some arg ->
       forall f, In f arg <-> In f (files s) /\ status f = Success)
  /\ (isProcessing p = true -> clickSummarize p s = None)
  /\ ((exists f, In f (files s) /\ status f = Uploading) ->
      clickSummarize p s = None)
  /\ ((forall f, In f (files s) -> status f <> Success) ->
      clickSummarize p s = None)
  /\ (files s <> [] ->
      (summarizeDisabled p (files s) = true <->
       isProcessing p = true
       \/ (exists f, In f (files s) /\ status f = Uploading)
       \/ (forall f, In f (files s) -> status f <> Success))).
Proof.
  assert (Hup : existsb (hasStatus Uploading) (files s) = true <->
                exists f, In f (files s) /\ status f = Uploading).
  { rewrite existsb_exists. unfold hasStatus.
    split; intros (f & Hf & E); exists f; split; try assumption;
      now apply Status_eqb_eq. }
  assert (Hnone : (length (filter (hasStatus Success) (files s)) =? 0)%nat
                  = true <->
                  forall f, In f (files s) -> status f <> Success).
  { rewrite Nat.eqb_eq. split.
    - intros H f Hf E.
      assert (Hin : In f (filter (hasStatus Success) (files s))).
      { apply filter_In. split; [assumption|]. now apply Status_eqb_eq. }
      destruct (filter (hasStatus Success) (files s));
        [contradiction | discriminate].
    - intros H. destruct (filter (hasStatus Success) (files s)) as [|x l] eqn:E;
        [reflexivity|]. exfalso.
      assert (Hx : In x (filter (hasStatus Success) (files s)))
        by (rewrite E; now left).
      apply filter_In in Hx. destruct Hx as [Hx Hs].
      apply Status_eqb_eq in Hs. exact (H x Hx Hs). }
  assert (Hdis : summarizeDisabled p (files s) = true <->
                 isProcessing p = true
                 \/ (exists f, In f (files s) /\ status f = Uploading)
                 \/ (forall f, In f (files s) -> status f <> Success)).
  { unfold summarizeDisabled. rewrite !orb_true_iff, Hup, Hnone. tauto. }
  assert (Hclick : forall arg,
     clickSummarize p s = Some arg <->
     arg = filter (fun f => Status_eqb (status f) Success) (files s)
     /\ arg <> []
     /\ isProcessing p = false
     /\ (forall f, In f (files s) -> status f <> Uploading)).
  { intros arg. unfold clickSummarize, summarizeOnClick, summarizeRendered.
    fold (hasStatus Success).
    destruct (summarizeDisabled p (files s)) eqn:Ed.
    - rewrite andb_false_r. split; [discriminate|].
      intros (-> & Hne & Hp & Hno). exfalso.
      destruct (proj1 Hdis eq_refl) as [H | [(f & Hf & E) | H]].
      + congruence.
      + exact (Hno f Hf E).
      + apply Hne. apply (proj2 Hnone) in H.
        destruct (filter _ (files s)); [reflexivity | discriminate].
    - rewrite andb_true_r.
      assert (Hnp : isProcessing p = false).
      { destruct (isProcessing p) eqn:E; [|reflexivity].
        pose proof (proj2 Hdis (or_introl eq_refl)). discriminate. }
      assert (Hnu : forall f, In f (files s) -> status f <> Uploading).
      { intros f Hf E.
        pose proof (proj2 Hdis (or_intror (or_introl
                      (ex_intro _ f (conj Hf E))))). discriminate. }
      assert (Hsome : filter (hasStatus Success) (files s) <> []).
      { intros E. assert (false = true); [|discriminate].
        apply Hdis. right. right. apply Hnone. now rewrite E. }
      assert (Hlen : (0 <? length (filter (hasStatus Success) (files s)))%nat
                     = true).
      { destruct (filter _ (files s)); [contradiction | reflexivity]. }
      assert (Hren : (0 <? length (files s))%nat = true).
      { destruct (files s); [contradiction | reflexivity]. }
      rewrite Hren, Hlen. split.
      + intros [= <-]. tauto.
      + intros (-> & _). reflexivity. }
  split; [exact Hclick|]. split.
  { intros arg H f. apply Hclick in H. destruct H as (-> & _).
    rewrite filter_In, Status_eqb_eq. reflexivity. }
  assert (Hno : summarizeDisabled p (files s) = true ->
                clickSummarize p s = None).
  { intros H. unfold clickSummarize. rewrite H. now rewrite andb_false_r. }
  split. { intros H. apply Hno, Hdis. now left. }
  split. { intros H. apply Hno, Hdis. right. now left. }
  split. { intros H. apply Hno, Hdis. right. now right. }
  intros _. exact Hdis.
Qed.

(** A finished upload can be summarized; one still uploading cannot. *)
Lemma summarize_gating_witness :
  let p := destructure noProps in
  clickSummarize p (run p initial oneUpload)
    = Some (files (run p initial oneUpload))
  /\ clickSummarize p (run p initial dropAndTick) = None.
Proof.
  intros p. subst p.
  destruct (summarize_gating (destructure noProps)
              (run (destructure noProps) initial oneUpload)) as (Hiff & _).
  destruct (summarize_gating (destructure noProps)
              (run (destructure noProps) initial dropAndTick))
    as (_ & _ & _ & Hup & _).
  split.
  - apply Hiff. rewrite oneUpload_ends_in_success.
    split; [reflexivity|]. split; [discriminate|]. split; [reflexivity|].
    intros f [<- | []]. discriminate.
  - apply Hup. eexists. split; [left; reflexivity | reflexivity].
Defined.

(** The last tick of [oneUpload] takes the file from [Uploading] to
    [Success]. *)
Lemma status_state_machine_witness :
  let p := destructure noProps in
  map status (files (run p initial (removelast oneUpload))) = [Uploading]
  /\ map status (files (run p initial oneUpload)) = [Success]
  /\ listMove (Tick 0 (99 # 100))
              (files (run p initial (removelast oneUpload)))
              (files (run p initial oneUpload)).
Proof.
  intros p. split; [reflexivity|]. split; [reflexivity|].
  exact (proj1 (status_state_machine p (removelast oneUpload)
                  (Tick 0 (99 # 100)))).
Defined.

End UploaderFacts.

(** ** DocumentSummary *)

Module SummaryFacts.
Import Doc Summary.

(** C6 (highlight rendering).  The importance of a highlight is one of
    [high], [medium] and [low].  [getHighlightColor] gives the red class to
    [high], the yellow one to [medium] and the blue one to [low]; the three
    classes differ from one another and from the class of the [default]
    branch, which is what any other value gets: every input has a
    result. *)
Theorem highlight_colors :
  (forall h : Highlight,
     importance h = high \/ importance h = medium \/ importance h = low)
  /\ getHighlightColor (tag high) = "bg-red-100 border-l-4 border-red-500"
  /\ getHighlightColor (tag medium)
     = "bg-yellow-100 border-l-4 border-yellow-500"
  /\ getHighlightColor (tag low) = "bg-blue-100 border-l-4 border-blue-500"
  /\ (forall i j : Importance,
        getHighlightColor (tag i) = getHighlightColor (tag j) -> i = j)
  /\ (forall i : Importance,
        occursIn (match i with
                  | high => "red" | medium => "yellow" | low => "blue"
                  end) (getHighlightColor (tag i)) = true)
  /\ (forall v : string,
        (exists i, v = tag i) \/ getHighlightColor v = "bg-gray-100")
  /\ (forall i : Importance, getHighlightColor (tag i) <> "bg-gray-100").
Proof.
  split. { intros [t []]; simpl; tauto. }
  split; [reflexivity|]. split; [reflexivity|]. split; [reflexivity|].
  split. { intros [] []; simpl; intros H; try reflexivity; discriminate H. }
  split. { intros []; reflexivity. }
  split.
  { intros v. unfold getHighlightColor.
    destruct (String.eqb_spec v "high") as [-> | _];
      [left; now exists high|].
    destruct (String.eqb_spec v "medium") as [-> | _];
      [left; now exists medium|].
    destruct (String.eqb_spec v "low") as [-> | _];
      [left; now exists low|].
    now right. }
  intros []; discriminate.
Qed.

End SummaryFacts.

(** ** ResultsDashboard *)

Module DashboardFacts.
Import Dashboard.

Lemma find_In {A : Type} (g : A -> bool) (l : list A) (x : A) :
  find g l = Some x -> In x l /\ g x = true.
Proof. apply find_some. Qed.

(** C7 (default sample data).  Without a [documents] prop the dashboard
    works on the two sample documents, with ids 1 and 2, and the first of
    them is active at the start.  With a [documents] prop it works on the
    documents of the prop and no others: the side list has their ids, the
    current document is one of them, and the document active at the start
    is the first of them, or the empty string when there is none. *)
Theorem default_sample_data :
  documents {| documents_prop := None |} = sampleDocuments
  /\ map id sampleDocuments = ["1"; "2"]
  /\ initialActiveDocument {| documents_prop := None |} = "1"
  /\ currentDocument {| documents_prop := None |}
       (initialActiveDocument {| documents_prop := None |})
     = nth_error sampleDocuments 0
  /\ (forall ds : list Document,
        documents {| documents_prop := Some ds |} = ds
        /\ tabKeys {| documents_prop := Some ds |} = map id ds
        /\ initialActiveDocument {| documents_prop := Some ds |}
           = match ds with
             | [] => EmptyString
             | first :: _ => id first
             end
        /\ (forall active d,
              currentDocument {| documents_prop := Some ds |} active
              = Some d ->
              In d ds /\ id d = active)).
Proof.
  split; [reflexivity|]. split; [reflexivity|]. split; [reflexivity|].
  split; [reflexivity|].
  intros ds. split; [reflexivity|]. split; [reflexivity|]. split.
  - unfold initialActiveDocument. simpl.
    destruct ds as [|first rest]; simpl; [reflexivity|].
    now destruct (id first).
  - intros active d H. unfold currentDocument in H. simpl in H.
    apply find_In in H. destruct H as [Hin E].
    apply String.eqb_eq in E. now split.
Qed.

(** C8 as stated fails for the title: the dashboard takes a document
    without one, makes it current and heads it with its file name. *)
Lemma untitled_document_handled :
  title untitledDocument = None
  /\ currentDocument untitledOnly (initialActiveDocument untitledOnly)
     = Some untitledDocument
  /\ heading untitledDocument = "minutes.docx"
  /\ ~ (forall d : Document, exists t, title d = Some t).
Proof.
  split; [reflexivity|]. split; [reflexivity|]. split; [reflexivity|].
  intros H. destruct (H untitledDocument) as [t Ht]. discriminate Ht.
Qed.

Lemma find_first {A : Type} (g : A -> bool) (l : list A) (x : A) :
  In x l -> g x = true ->
  exists y, find g l = Some y /\ In y l /\ g y = true.
Proof.
  induction l as [|z l IH]; simpl; [contradiction|].
  intros Hin Hg. destruct (g z) eqn:Hz.
  - exists z. repeat split; [now left | assumption].
  - destruct Hin as [-> | Hin]; [congruence|].
    destruct (IH Hin Hg) as (y & E & Hy & Hgy).
    exists y. repeat split; [assumption | now right | assumption].
Qed.

(** C8, amended (document record shape).  Every document the dashboard
    handles, that is every document of its list, is a record of an id, a
    file name, a summary, a full text, a list of highlights and metadata
    made of tags, key insights and entities; its title may be absent.
    With or without a title the document is in the side list and, once
    chosen, a document of the list with its id is the current one. *)
Theorem document_record_shape (props : ResultsDashboardProps)
    (d : Document) :
  In d (documents props) ->
  (exists (i : string) (t : option string) (fn su ft : string)
          (tg ki : list string) (en : list Doc.Entity)
          (hs : list Doc.Highlight) (pd : string),
     d = {| id := i; title := t; originalFileName := fn; summary := su;
            fullText := ft;
            metadata := {| Doc.tags := tg; Doc.keyInsights := ki;
                           Doc.entities := en |};
            highlights := hs; processedDate := pd |})
  /\ In (id d) (tabKeys props)
  /\ exists shown,
       currentDocument props (id d) = Some shown
       /\ In shown (documents props) /\ id shown = id d.
Proof.
  intros Hd. split; [|split].
  - destruct d as [i t fn su ft [tg ki en] hs pd].
    now exists i, t, fn, su, ft, tg, ki, en, hs, pd.
  - unfold tabKeys. now apply in_map.
  - unfold currentDocument.
    destruct (find_first (fun doc => String.eqb (id doc) (id d))
                         (documents props) d Hd (String.eqb_refl _))
      as (y & E & Hy & Hg).
    apply String.eqb_eq in Hg. now exists y.
Qed.

(** The document without a title is handled like any other. *)
Lemma document_record_shape_witness :
  In untitledDocument (documents untitledOnly)
  /\ title untitledDocument = None
  /\ In (id untitledDocument) (tabKeys untitledOnly)
  /\ exists shown,
       currentDocument untitledOnly (id untitledDocument) = Some shown
       /\ In shown (documents untitledOnly)
       /\ id shown = id untitledDocument.
Proof.
  assert (Hin : In untitledDocument (documents untitledOnly))
    by (left; reflexivity).
  split; [exact Hin|]. split; [reflexivity|].
  exact (proj2 (document_record_shape untitledOnly untitledDocument Hin)).
Defined.

End DashboardFacts.

(** ** More of the uploader: verdicts, errors, batches *)

Module UploaderBehaviour.
Import Uploader UploaderFacts.

Lemma validateFile_valid_iff (p : Props) (fs : list FileWithPreview)
    (f : File) :
  valid (validateFile p fs f) = true <->
  size f <= maxSizeBytes p
  /\ In (fileExtension f) (allowedFileTypes p)
  /\ Z.of_nat (length fs) < maxFiles p.
Proof.
  unfold validateFile. rewrite <- includes_In.
  destruct (Z.gtb_spec (size f) (maxSizeBytes p)); simpl.
  - split; [discriminate | lia].
  - destruct (Js.includes (allowedFileTypes p) (fileExtension f)); simpl.
    + destruct (Z.geb_spec (Z.of_nat (length fs)) (maxFiles p)); simpl.
      * split; [discriminate | lia].
      * split; [intros _; repeat split; lia | reflexivity].
    + split; [discriminate | intros (_ & Hin & _); discriminate Hin].
Qed.

(** What [validateFile] reports is one of its three texts, and the text is
    never empty: the fallback of [processFiles] is not used. *)
Lemma validateFile_error_cases (p : Props) (fs : list FileWithPreview)
    (f : File) :
  (valid (validateFile p fs f) = true /\ error (validateFile p fs f) = None)
  \/ (valid (validateFile p fs f) = false
      /\ (error (validateFile p fs f) = Some (sizeError p)
          \/ error (validateFile p fs f) = Some (typeError p)
          \/ error (validateFile p fs f) = Some (countError p))
      /\ Js.orElse (error (validateFile p fs f)) "Invalid file"
         <> "Invalid file"
      /\ Some (Js.orElse (error (validateFile p fs f)) "Invalid file")
         = error (validateFile p fs f)).
Proof.
  unfold validateFile.
  destruct (size f >? maxSizeBytes p); simpl.
  { right. repeat split; try discriminate. now left. }
  destruct (Js.includes (allowedFileTypes p) (fileExtension f)); simpl.
  2: { right. repeat split; try discriminate. right. now left. }
  destruct (Z.of_nat (length fs) >=? maxFiles p); simpl.
  - right. repeat split; try discriminate. right. now right.
  - left. now split.
Qed.

(** X1.  [validateFile] accepts a file exactly when its size is at most
    the ceiling, its extension is in the allow-list and the rendered list is
    shorter than [maxFiles]; it reports no error exactly when it accepts,
    and otherwise the error is the size, the type or the count text.  The
    checks are made in that order: of two failing checks the earlier one
    names the error. *)
Theorem validateFile_verdict (p : Props) (fs : list FileWithPreview)
    (f : File) :
  (valid (validateFile p fs f) = true <->
   size f <= maxSizeBytes p
   /\ In (fileExtension f) (allowedFileTypes p)
   /\ Z.of_nat (length fs) < maxFiles p)
  /\ (error (validateFile p fs f) = None <->
      valid (validateFile p fs f) = true)
  /\ (error (validateFile p fs f) = Some (sizeError p) <->
      size f > maxSizeBytes p)
  /\ (error (validateFile p fs f) = Some (typeError p) <->
      size f <= maxSizeBytes p
      /\ ~ In (fileExtension f) (allowedFileTypes p))
  /\ (error (validateFile p fs f) = Some (countError p) <->
      size f <= maxSizeBytes p
      /\ In (fileExtension f) (allowedFileTypes p)
      /\ Z.of_nat (length fs) >= maxFiles p).
Proof.
  split; [apply validateFile_valid_iff|].
  pose proof (sizeError_not_typeError p) as Hst.
  pose proof (typeError_not_countError p) as Htc.
  assert (Hsc : sizeError p <> countError p)
    by (unfold sizeError, countError; simpl; discriminate).
  unfold validateFile. rewrite <- includes_In.
  destruct (Z.gtb_spec (size f) (maxSizeBytes p)); simpl;
    [|destruct (Js.includes (allowedFileTypes p) (fileExtension f)); simpl;
      [destruct (Z.geb_spec (Z.of_nat (length fs)) (maxFiles p)); simpl|]];
    repeat split; intros;
    intuition (try discriminate; try congruence; try lia).
Qed.

Lemma validateFile_verdict_witness :
  error (validateFile (destructure noProps) []
           {| name := "movie.mp4"; size := 99999999 |})
  = Some (sizeError (destructure noProps)).
Proof.
  apply (proj1 (proj2 (proj2 (validateFile_verdict (destructure noProps) []
                                {| name := "movie.mp4";
                                   size := 99999999 |})))).
  reflexivity.
Defined.

Lemma pop_In {A : Type} (l : list A) (x : A) : Js.pop l = Some x -> In x l.
Proof.
  induction l as [|y l IH]; simpl; [discriminate|].
  destruct l as [|z l']; [intros [= ->]; now left|].
  intros H. right. now apply IH.
Qed.

Lemma pop_None {A : Type} (l : list A) : Js.pop l = None -> l = [].
Proof.
  induction l as [|y l IH]; simpl; [reflexivity|].
  destruct l as [|z l']; [discriminate|].
  intros H. specialize (IH H). discriminate IH.
Qed.

Lemma fold_processOne_error (p : Props) (fs : list FileWithPreview)
    (ids : nat -> string) (l : list File) (b : Batch) :
  lastError (fold_left (processOne p fs ids) l b) =
  match Js.pop (rejected p fs l) with
  | Some f => error (validateFile p fs f)
  | None => lastError b
  end.
Proof.
  revert b. induction l as [|f l IH]; intros b; [reflexivity|].
  simpl. rewrite IH. unfold processOne, rejected. simpl.
  destruct (validateFile_error_cases p fs f)
    as [[Hv He] | (Hv & _ & _ & He)]; rewrite Hv; simpl.
  - reflexivity.
  - fold (rejected p fs l).
    destruct (rejected p fs l) as [|g rest]; [exact He|].
    change (Js.pop (f :: g :: rest)) with (Js.pop (g :: rest)).
    destruct (Js.pop (g :: rest)) eqn:Hp; [reflexivity|].
    apply pop_None in Hp. discriminate Hp.
Qed.

(** X2.  After [processFiles] on a [FileList] the error shown is the one
    [validateFile] gave for the last file it turned down, whatever was shown
    before; it is cleared exactly when every file of the list was accepted
    (an empty list included).  The fallback text [Invalid file] is never
    shown. *)
Theorem processFiles_error (p : Props) (ids : nat -> string) (s : State)
    (l : list File) :
  errorState (processFiles p ids s (Some l)) =
    match Js.pop (rejected p (files s) l) with
    | Some f => error (validateFile p (files s) f)
    | None => None
    end
  /\ (errorState (processFiles p ids s (Some l)) = None <->
      Forall (fun f => valid (validateFile p (files s) f) = true) l)
  /\ errorState (processFiles p ids s (Some l)) <> Some "Invalid file".
Proof.
  assert (E : errorState (processFiles p ids s (Some l)) =
              match Js.pop (rejected p (files s) l) with
              | Some f => error (validateFile p (files s) f)
              | None => None
              end).
  { simpl. unfold forEachFile. now rewrite fold_processOne_error. }
  split; [exact E|]. rewrite E. split; [split|].
  - intros H. apply Forall_forall. intros f Hf.
    destruct (valid (validateFile p (files s) f)) eqn:Hv; [reflexivity|].
    exfalso.
    assert (Hr : In f (rejected p (files s) l)).
    { apply filter_In. split; [assumption | now rewrite Hv]. }
    destruct (Js.pop (rejected p (files s) l)) as [g|] eqn:Hp.
    + apply pop_In in Hp. apply filter_In in Hp. destruct Hp as [_ Hg].
      destruct (validateFile_error_cases p (files s) g)
        as [[Hgv _] | (_ & [He | [He | He]] & _)];
        [rewrite Hgv in Hg; discriminate | congruence ..].
    + apply pop_None in Hp. rewrite Hp in Hr. contradiction.
  - intros H. destruct (Js.pop (rejected p (files s) l)) as [g|] eqn:Hp;
      [|reflexivity].
    apply pop_In in Hp. apply filter_In in Hp. destruct Hp as [Hg Hv].
    rewrite (proj1 (Forall_forall _ _) H g Hg) in Hv. discriminate.
  - destruct (Js.pop (rejected p (files s) l)) as [g|]; [|discriminate].
    destruct (validateFile_error_cases p (files s) g)
      as [[_ He] | (_ & [He | [He | He]] & _)]; rewrite He;
      try discriminate;
      unfold sizeError, typeError, countError; simpl; discriminate.
Qed.

(** A drop of a good file between two bad ones: the good one is added and
    the error is that of the last bad one. *)
Lemma processFiles_error_witness :
  let p := destructure noProps in
  let l := [ {| name := "big.pdf"; size := 99999999 |};
             {| name := "ok.pdf"; size := 1 |};
             {| name := "notes.txt"; size := 1 |} ] in
  errorState (processFiles p countingIds initial (Some l))
  = Some "File type not supported. Allowed types: .pdf, .docx, .doc"
  /\ errorState (processFiles p countingIds initial (Some l)) <> None.
Proof.
  intros p l. split; [reflexivity|].
  intros H. apply (proj1 (proj2 (processFiles_error p countingIds initial l)))
    in H.
  inversion H as [|? ? Hbig _]. discriminate Hbig.
Defined.




Lemma filter_length_le {A : Type} (g : A -> bool) (l : list A) :
  (length (filter g l) <= length l)%nat.
Proof.
  induction l as [|x l IH]; simpl; [lia|].
  destruct (g x); simpl; lia.
Qed.

Lemma step_keeps_ceiling (p : Props) (s : State) (e : Event) :
  0 <= maxFiles p ->
  oneFileAtATime [e] ->
  Z.of_nat (length (files s)) <= maxFiles p ->
  Z.of_nat (length (files (step p s e))) <= maxFiles p.
Proof.
  intros Hmax He Hs. inversion He as [|? ? Hone _]; subst.
  destruct e as [[l|] ids | k r | i]; simpl in *.
  - destruct (Z_lt_le_dec (Z.of_nat (length (files s))) (maxFiles p))
      as [Hlt | Hge].
    + pose proof (processFiles_length p ids s l) as Hlen. simpl in Hlen.
      rewrite Hlen.
      pose proof (filter_length_le
                    (fun f => valid (validateFile p (files s) f)) l).
      unfold accepted. lia.
    + pose proof (processFiles_full p ids s l) as Hfull. simpl in Hfull.
      rewrite Hfull; [assumption | lia].
  - assumption.
  - now rewrite (proj1 (tick_frame k r s)).
  - pose proof (filter_length_le
                  (fun f => negb (String.eqb (id f) i)) (files s)). lia.
Qed.

(** X4.  When [maxFiles] is not negative and files are offered one at a
    time (every [FileList] holds at most one file), the list never holds
    more than [maxFiles] entries, whatever ticks and removals come in
    between. *)
Theorem one_at_a_time_keeps_ceiling (p : Props) (es : list Event) :
  0 <= maxFiles p ->
  oneFileAtATime es ->
  Z.of_nat (length (files (run p initial es))) <= maxFiles p.
Proof.
  intros Hmax. unfold run.
  assert (H0 : Z.of_nat (length (files initial)) <= maxFiles p)
    by (simpl; lia).
  revert H0. generalize initial.
  induction es as [|e es IH]; intros s Hs Hes; simpl; [assumption|].
  inversion Hes as [|? ? He Hrest]; subst.
  apply IH; [|assumption].
  apply step_keeps_ceiling; try assumption. now constructor.
Qed.

(** Four files dropped one by one on a component that takes two. *)
Lemma one_at_a_time_keeps_ceiling_witness :
  Z.of_nat (length (files (run twoFilesAtMost initial fourDrops))) <= 2
  /\ map id (files (run twoFilesAtMost initial fourDrops))
     = ["file-a.pdf"; "file-b.pdf"]
  /\ errorState (run twoFilesAtMost initial fourDrops)
     = Some "Maximum 2 files allowed".
Proof.
  split.
  - apply (one_at_a_time_keeps_ceiling twoFilesAtMost fourDrops).
    + discriminate.
    + repeat constructor.
  - split; reflexivity.
Defined.

(** *** The shape of an extension *)

Lemma lowerAscii_dot (c : ascii) :
  Ascii.eqb (Js.lowerAscii c) "." = Ascii.eqb c ".".
Proof. destruct c as [[] [] [] [] [] [] [] []]; reflexivity. Qed.

Lemma lowerAscii_not_upper (c : ascii) :
  (let n := nat_of_ascii (Js.lowerAscii c) in
   ((65 <=? n) && (n <=? 90))%nat) = false.
Proof. destruct c as [[] [] [] [] [] [] [] []]; reflexivity. Qed.

Lemma toLowerCase_no_upper (s : string) :
  hasAsciiUpper (Js.toLowerCase s) = false.
Proof.
  induction s as [|c s IH]; simpl; [reflexivity|].
  pose proof (lowerAscii_not_upper c) as Hc. simpl in Hc.
  now rewrite Hc, IH.
Qed.

Lemma hasDot_toLowerCase (s : string) :
  hasDot (Js.toLowerCase s) = hasDot s.
Proof.
  induction s as [|c s IH]; simpl; [reflexivity|].
  now rewrite lowerAscii_dot, IH.
Qed.

Lemma textAfterLastDot_hasDot (s : string) :
  hasDot (textAfterLastDot s) = false.
Proof.
  induction s as [|c s IH]; simpl; [reflexivity|].
  destruct (hasDot s) eqn:Hs; [exact IH|].
  destruct (Ascii.eqb c ".") eqn:Hc; [exact Hs|].
  simpl. now rewrite Hc, Hs.
Qed.

Lemma fileExtension_matchable (f : File) :
  matchableType (fileExtension f) = true.
Proof.
  rewrite fileExtension_spec. cbn [append matchableType].
  rewrite hasDot_toLowerCase, textAfterLastDot_hasDot.
  now rewrite toLowerCase_no_upper.
Qed.

(** X5.  The extension computed for a file is a dot followed by text
    without a dot and without any of the letters [A] to [Z].  So an entry
    of [allowedFileTypes] that is not of that shape (no leading dot, a
    second dot, one of those letters) admits no file, and a component
    whose entries are all of that kind accepts nothing. *)
Theorem extension_shape (p : Props) (fs : list FileWithPreview) (f : File) :
  matchableType (fileExtension f) = true
  /\ (valid (validateFile p fs f) = true ->
      exists e, In e (allowedFileTypes p) /\ matchableType e = true
                /\ e = fileExtension f)
  /\ (Forall (fun e => matchableType e = false) (allowedFileTypes p) ->
      valid (validateFile p fs f) = false).
Proof.
  split; [apply fileExtension_matchable|].
  assert (Hin : valid (validateFile p fs f) = true ->
                exists e, In e (allowedFileTypes p)
                          /\ matchableType e = true
                          /\ e = fileExtension f).
  { intros Hv. apply validateFile_valid_iff in Hv.
    destruct Hv as (_ & Hin & _). exists (fileExtension f).
    repeat split; [assumption | apply fileExtension_matchable]. }
  split; [exact Hin|].
  intros Hall.
  destruct (valid (validateFile p fs f)) eqn:Hv; [|reflexivity].
  destruct (Hin eq_refl) as (e & He & Hm & _).
  rewrite (proj1 (Forall_forall _ _) Hall e He) in Hm. discriminate.
Qed.

(** An allow-list written in upper case turns every file down, the files
    with an upper-case extension included. *)
Lemma extension_shape_witness :
  let p := destructure {| maxFiles_prop := None; maxSizeMB_prop := None;
                          allowedFileTypes_prop := Some [".PDF"; "docx"];
                          isProcessing_prop := None |} in
  valid (validateFile p [] {| name := "REPORT.PDF"; size := 1 |}) = false.
Proof.
  intros p.
  apply (proj2 (proj2 (extension_shape p []
                         {| name := "REPORT.PDF"; size := 1 |}))).
  repeat constructor.
Defined.

(** *** Removal *)







(** *** Timers *)

Lemma timerAfter_cases (t : Timer) (r : Q) (prev : list FileWithPreview) :
  (100 <= tprogress t + r * 10
   /\ timerAfter (intervalCallback t r prev)
      = {| tid := tid t; tprogress := 100; running := false |})%Q
  \/ (tprogress t + r * 10 < 100
      /\ timerAfter (intervalCallback t r prev)
         = {| tid := tid t; tprogress := tprogress t + r * 10;
              running := true |})%Q.
Proof.
  unfold intervalCallback.
  destruct (Qle_bool 100 (tprogress t + r * 10)) eqn:Hd; simpl.
  - left. split; [now apply Qle_bool_iff | reflexivity].
  - right. split; [now apply Qle_bool_false | reflexivity].
Qed.

Lemma setNth_length {A : Type} (k : nat) (x : A) (l : list A) :
  length (setNth k x l) = length l.
Proof.
  revert k. induction l as [|y l IH]; intros [|k]; simpl; auto.
Qed.

Lemma setNth_other {A : Type} (k k' : nat) (x : A) (l : list A) :
  k <> k' -> nth_error (setNth k' x l) k = nth_error l k.
Proof.
  revert k k'. induction l as [|z l IH]; intros [|k] [|k'] H; simpl;
    try reflexivity; try contradiction.
  apply IH. congruence.
Qed.

(** Timer [k] across one event: only its own tick, while it is set,
    changes it. *)
Lemma step_timer (p : Props) (s : State) (e : Event) (k : nat) (t : Timer) :
  nth_error (timers s) k = Some t ->
  nth_error (timers (step p s e)) k =
  Some match e with
       | Tick k' r =>
           if Nat.eqb k' k && running t
           then timerAfter (intervalCallback t r (files s))
           else t
       | _ => t
       end.
Proof.
  intros Hk. destruct e as [[l|] ids | k' r | i]; simpl.
  - rewrite nth_error_app1; [assumption|].
    apply nth_error_Some. congruence.
  - assumption.
  - destruct (Nat.eqb_spec k' k) as [-> | Hne]; simpl.
    + unfold tick. rewrite Hk. destruct (running t); [|assumption].
      simpl. now apply (setNth_same k _ t).
    + unfold tick. destruct (nth_error (timers s) k') as [t'|];
        [|assumption].
      destruct (running t'); [|assumption].
      simpl. rewrite setNth_other; [assumption | congruence].
  - assumption.
Qed.

Lemma step_timers_length (p : Props) (s : State) (e : Event) :
  (length (timers s) <= length (timers (step p s e)))%nat.
Proof.
  destruct e as [[l|] ids | k r | i]; simpl; try lia.
  - rewrite length_app. lia.
  - unfold tick. destruct (nth_error (timers s) k) as [t|]; [|lia].
    destruct (running t); [|lia]. simpl. rewrite setNth_length. lia.
Qed.

(** X7.  A timer is changed by its own ticks only, and only while its
    interval is set: across any event the timer at a handle keeps its
    handle and its id; it is exactly as before unless the event is a tick
    of that handle; once cleared it stays as it is for ever; and no timer
    is ever dropped, a removal of its file included. *)
Theorem timer_frame (p : Props) (s : State) (e : Event) (k : nat)
    (t : Timer) :
  nth_error (timers s) k = Some t ->
  (length (timers s) <= length (timers (step p s e)))%nat
  /\ exists t',
       nth_error (timers (step p s e)) k = Some t'
       /\ tid t' = tid t
       /\ ((forall r, e <> Tick k r) -> t' = t)
       /\ (running t = false -> t' = t)
       /\ (forall es, running t = false ->
           nth_error (timers (run p s es)) k = Some t).
Proof.
  intros Hk. split; [apply step_timers_length|].
  eexists. split; [apply (step_timer p s e k t Hk)|].
  split; [|split; [|split]].
  - destruct e as [[l|] ids | k' r | i]; try reflexivity.
    destruct (Nat.eqb k' k && running t); [|reflexivity].
    destruct (timerAfter_cases t r (files s)) as [[_ ->] | [_ ->]];
      reflexivity.
  - intros Hne. destruct e as [[l|] ids | k' r | i]; try reflexivity.
    destruct (Nat.eqb_spec k' k) as [-> | _]; [|reflexivity].
    exfalso. now apply (Hne r).
  - intros Hrun. destruct e as [[l|] ids | k' r | i]; try reflexivity.
    now rewrite Hrun, andb_false_r.
  - intros es Hrun. revert s Hk.
    induction es as [|e' es IH]; intros s Hk; simpl; [assumption|].
    apply IH. rewrite (step_timer p s e' k t Hk).
    destruct e' as [[l|] ids | k' r | i]; try reflexivity.
    now rewrite Hrun, andb_false_r.
Qed.

Lemma timer_frame_witness :
  let s := run (destructure noProps) initial
               [ProcessFiles (Some threePdfs) countingIds] in
  exists t',
    nth_error (timers (step (destructure noProps) s (RemoveFile "file-1")))
              1 = Some t'
    /\ tid t' = "file-1" /\ running t' = true.
Proof.
  intros s.
  destruct (timer_frame (destructure noProps) s (RemoveFile "file-1") 1
              {| tid := "file-1"; tprogress := 0; running := true |}
              eq_refl) as (_ & t' & Hk & Hid & Hsame & _).
  exists t'. split; [exact Hk|]. split; [exact Hid|].
  rewrite (Hsame ltac:(discriminate)). reflexivity.
Defined.




(** *** The calls of onUploadComplete *)


Lemma allUploaded_Forall (l : list FileWithPreview) :
  allUploaded l = true <-> Forall (fun f => status f = Success) l.
Proof.
  unfold allUploaded. rewrite forallb_forall, Forall_forall.
  split; intros H f Hf; apply Status_eqb_eq; now apply H.
Qed.

(** The calls made across one event: none, or one on a completing tick
    after which every entry is [Success], with the list of that moment. *)
Lemma step_uploadComplete (p : Props) (s : State) (e : Event) :
  uploadComplete (step p s e) = uploadComplete s
  \/ (uploadComplete (step p s e) = uploadComplete s ++ [files (step p s e)]
      /\ Forall (fun f => status f = Success) (files (step p s e))
      /\ exists k r t,
           e = Tick k r /\ nth_error (timers s) k = Some t
           /\ running t = true /\ (100 <= tprogress t + r * 10)%Q).
Proof.
  destruct e as [[l|] ids | k r | i]; simpl; try now left.
  unfold tick. destruct (nth_error (timers s) k) as [t|] eqn:Hk;
    [|now left].
  destruct (running t) eqn:Hrun; [|now left].
  unfold intervalCallback.
  destruct (Qle_bool 100 (tprogress t + r * 10)) eqn:Hd; simpl;
    [|now left].
  destruct (allUploaded (markSuccess (tid t) 100 (files s))) eqn:Hall;
    [|now left].
  right. split; [reflexivity|]. split; [now apply allUploaded_Forall|].
  exists k, r, t. repeat split; try assumption. now apply Qle_bool_iff.
Qed.



Lemma Forall_success_filter (l : list FileWithPreview) :
  Forall (fun f => status f = Success) l ->
  filter (hasStatus Success) l = l
  /\ existsb (hasStatus Uploading) l = false.
Proof.
  induction 1 as [|f l Hf _ [IH1 IH2]]; simpl; [now split|].
  rewrite IH1, IH2. unfold hasStatus. rewrite Hf. now split.
Qed.

(** X10.  When a call of [onUploadComplete] has just been made with a
    list that is not empty, and the component is not processing, the
    Summarize button is enabled and a click passes that same list to
    [onSummarize]. *)
Theorem summarize_after_upload_complete (p : Props) (s : State) (e : Event)
    (fs : list FileWithPreview) :
  isProcessing p = false ->
  uploadComplete (step p s e) = uploadComplete s ++ [fs] ->
  fs <> [] ->
  clickSummarize p (step p s e) = Some fs.
Proof.
  intros Hp Hcall Hne.
  destruct (step_uploadComplete p s e) as [E | (E & Hall & _)].
  - exfalso. rewrite E in Hcall.
    apply (f_equal (@length _)) in Hcall. rewrite length_app in Hcall.
    simpl in Hcall. lia.
  - rewrite E in Hcall. apply app_inv_head in Hcall.
    injection Hcall as <-.
    destruct (Forall_success_filter _ Hall) as [Hf Hu].
    unfold clickSummarize, summarizeRendered, summarizeDisabled,
      summarizeOnClick.
    rewrite Hp, Hu, Hf.
    destruct (files (step p s e)); [contradiction | reflexivity].
Qed.

Lemma summarize_after_upload_complete_witness :
  let p := destructure noProps in
  let s := run p initial (removelast oneUpload) in
  clickSummarize p (step p s (Tick 0 (99 # 100)))
  = Some (files (step p s (Tick 0 (99 # 100)))).
Proof.
  intros p s. apply summarize_after_upload_complete.
  - reflexivity.
  - vm_compute. reflexivity.
  - vm_compute. discriminate.
Defined.

(** *** How long an upload takes *)

Lemma ticksOf_cons (k : nat) (e : Event) (es : list Event) :
  ticksOf k (e :: es) =
  match e with
  | Tick k' r => if Nat.eqb k' k then r :: ticksOf k es else ticksOf k es
  | _ => ticksOf k es
  end.
Proof.
  unfold ticksOf. simpl. destruct e as [fl ids | k' r | i]; try reflexivity.
  now destruct (Nat.eqb k' k).
Qed.

Lemma admissible_ticks (p : Props) (k : nat) (es : list Event) (s : State) :
  admissibleRun p s es ->
  forall r, In r (ticksOf k es) -> (0 <= r)%Q /\ (r < 1)%Q.
Proof.
  revert s. induction es as [|e es IH]; intros s Ha r Hr;
    [contradiction|].
  destruct Ha as [He Hrest]. rewrite ticksOf_cons in Hr.
  destruct e as [fl ids | k' r' | i]; try (now apply (IH _ Hrest)).
  destruct (Nat.eqb k' k); [|now apply (IH _ Hrest)].
  destruct Hr as [<- | Hr]; [exact He | now apply (IH _ Hrest)].
Qed.

Lemma timer_stays_set (p : Props) (k : nat) (es : list Event) :
  forall (s : State) (t : Timer),
    nth_error (timers s) k = Some t ->
    running t = true ->
    (forall r, In r (ticksOf k es) -> (r < 1)%Q) ->
    (tprogress t + 10 * inject_Z (Z.of_nat (length (ticksOf k es)))
     <= 100)%Q ->
    exists t', nth_error (timers (run p s es)) k = Some t'
               /\ tid t' = tid t /\ running t' = true.
Proof.
  induction es as [|e es IH]; intros s t Hk Hrun Hr Hb.
  - exists t. now repeat split.
  - pose proof (step_timer p s e k t Hk) as Hstep.
    rewrite ticksOf_cons in Hr, Hb. simpl.
    destruct e as [fl ids | k' r | i];
      try (now apply (IH _ t Hstep Hrun Hr Hb)).
    destruct (Nat.eqb k' k); simpl in Hstep;
      [|now apply (IH _ t Hstep Hrun Hr Hb)].
    rewrite Hrun in Hstep.
    assert (Hr1 : (r < 1)%Q) by (apply Hr; now left).
    assert (Hn : (inject_Z (Z.of_nat (length (r :: ticksOf k es)))
                  == inject_Z (Z.of_nat (length (ticksOf k es))) + 1)%Q).
    { simpl length. rewrite Nat2Z.inj_succ. unfold Z.succ.
      now rewrite inject_Z_plus. }
    assert (Hn0 : (0 <= inject_Z (Z.of_nat (length (ticksOf k es))))%Q).
    { change 0%Q with (inject_Z 0). rewrite <- Zle_Qle. lia. }
    rewrite Hn in Hb.
    destruct (timerAfter_cases t r (files s)) as [[Hge _] | [Hlt E]].
    + exfalso. lra.
    + rewrite E in Hstep.
      destruct (IH _ _ Hstep eq_refl) as (t' & Hk' & Hid & Hrun').
      * intros r0 Hr0. apply Hr. now right.
      * simpl. lra.
      * exists t'. now repeat split.
Qed.

(** X11.  An upload never completes in fewer than eleven ticks: along any
    run in which the draws lie in [0, 1) and the ids are new, a timer that
    stood at 0 and has ticked ten times or less is still set, and the
    entry of its file is still [Uploading], below 100. *)
Theorem upload_needs_eleven_ticks (p : Props) (s : State)
    (es : list Event) (k : nat) (t : Timer) :
  consistent s ->
  admissibleRun p s es ->
  nth_error (timers s) k = Some t ->
  running t = true ->
  tprogress t = 0%Q ->
  (length (ticksOf k es) <= 10)%nat ->
  exists t',
    nth_error (timers (run p s es)) k = Some t'
    /\ tid t' = tid t
    /\ running t' = true
    /\ forall f, In f (files (run p s es)) -> id f = tid t ->
                 status f = Uploading /\ (progress f < 100)%Q.
Proof.
  intros Hs Ha Hk Hrun H0 Hn.
  destruct (timer_stays_set p k es s t Hk Hrun) as (t' & Hk' & Hid & Hrun').
  - intros r Hr. now apply (admissible_ticks p k es s Ha).
  - rewrite H0.
    assert (H10 : (inject_Z (Z.of_nat (length (ticksOf k es)))
                   <= inject_Z 10)%Q) by (rewrite <- Zle_Qle; lia).
    change (inject_Z 10) with 10%Q in H10. lra.
  - exists t'. repeat split; try assumption;
      pose proof (consistent_run p es s Hs Ha) as Hs';
      assert (Hid' : id f = tid t') by congruence;
      destruct (consistent_timer_entries _ k t' f Hs' Hk' H Hid')
        as (_ & Epr & _ & Hst);
      rewrite Hrun' in Hst; destruct Hst as [Hup Hlt];
      [assumption | now rewrite Epr].
Qed.

Lemma upload_needs_eleven_ticks_witness :
  let p := destructure noProps in
  let s := run p initial
               [ProcessFiles (Some [ {| name := "a.pdf"; size := 1 |} ])
                             countingIds] in
  exists t',
    nth_error (timers (run p s (repeat (Tick 0 (99 # 100)) 10))) 0
    = Some t'
    /\ running t' = true.
Proof.
  intros p s.
  destruct (upload_needs_eleven_ticks p s (repeat (Tick 0 (99 # 100)) 10)
              0 {| tid := "file-0"; tprogress := 0; running := true |})
    as (t' & Hk & _ & Hrun & _).
  - apply (consistent_run p _ initial consistent_initial).
    simpl. split; [|exact I]. split; [repeat constructor; simpl; tauto|].
    simpl. tauto.
  - simpl. repeat split; discriminate.
  - reflexivity.
  - reflexivity.
  - reflexivity.
  - simpl. lia.
  - exists t'. now split.
Defined.

(** *** What the list shows *)

Lemma round_bounds (x : Q) :
  (0 <= x)%Q -> (x <= 100)%Q -> 0 <= Js.round x <= 100.
Proof.
  intros H0 H100. unfold Js.round. split.
  - change 0 with (Qfloor 0). apply Qfloor_resp_le. lra.
  - change 100 with (Qfloor (201 # 2)). apply Qfloor_resp_le. lra.
Qed.

(** X13.  The line under a file name never reads [Upload failed]: along
    every run it is [Upload complete] for a [Success] entry and
    [Uploading... n%] otherwise; and when the draws lie in [0, 1) and the
    ids are new, the percentage [n] shown is a whole number from 0 to
    100. *)
Theorem status_text_shown (p : Props) (es : list Event)
    (f : FileWithPreview) :
  In f (files (run p initial es)) ->
  statusText f <> "Upload failed"
  /\ (status f = Success <-> statusText f = "Upload complete")
  /\ (admissibleRun p initial es ->
      status f <> Success ->
      exists n, 0 <= n <= 100
                /\ statusText f
                   = ("Uploading... " ++ Js.numToString n ++ "%")%string).
Proof.
  intros Hf.
  pose proof (proj1 (Forall_forall _ _) (no_error_reachable p es) f Hf)
    as Hne.
  unfold statusText. destruct (status f) eqn:Hst; [| |contradiction].
  - split; [simpl; discriminate|]. split.
    + split; [discriminate | simpl; discriminate].
    + intros Ha _. exists (Js.round (progress f)). split; [|reflexivity].
      pose proof (consistent_run p es initial consistent_initial Ha) as Hs.
      destruct (consistent_entry _ f Hs Hf) as (H0 & H100 & _).
      now apply round_bounds.
  - split; [discriminate|]. split; [now split|].
    intros _ H. contradiction.
Qed.

Lemma status_text_shown_witness :
  map statusText (files (run (destructure noProps) initial
                             (dropAndTick ++ [secondTick])))
  = ["Uploading... 10%"]
  /\ exists n, 0 <= n <= 100
               /\ ("Uploading... 10%"
                   = "Uploading... " ++ Js.numToString n ++ "%")%string.
Proof.
  split; [reflexivity|].
  destruct (status_text_shown (destructure noProps)
              (dropAndTick ++ [secondTick])
              {| file := None; preview := None; id := "file-0";
                 progress := (0 + (1 # 2) * 10 + (1 # 2) * 10)%Q;
                 status := Uploading; errorMessage := None |})
    as (_ & _ & Hn).
  - left. reflexivity.
  - exact (Hn dropAndTick_admissible ltac:(discriminate)).
Defined.

(** *** A component that takes nothing *)

(** X14.  With [maxFiles] at 0 or below, or with an empty
    [allowedFileTypes], no file is ever accepted: along every run the list
    stays empty and no timer is started. *)
Theorem nothing_accepted (p : Props) (es : list Event) :
  maxFiles p <= 0 \/ allowedFileTypes p = [] ->
  files (run p initial es) = [] /\ timers (run p initial es) = [].
Proof.
  intros Hp.
  apply (run_invariant p (fun s => files s = [] /\ timers s = []));
    [|now split].
  intros s e [Hf Ht]. destruct e as [[l|] ids | k r | i]; simpl.
  - assert (E : accepted p (files s) l = []).
    { unfold accepted. induction l as [|f l IH]; [reflexivity|]. simpl.
      destruct (valid (validateFile p (files s) f)) eqn:Hv; [|exact IH].
      exfalso. apply validateFile_valid_iff in Hv.
      destruct Hv as (_ & Hin & Hlen). rewrite Hf in Hlen. simpl in Hlen.
      destruct Hp as [Hp | Hp]; [lia | now rewrite Hp in Hin]. }
    destruct (processFiles_shape p ids s l) as [E1 E2]. simpl in E1, E2.
    rewrite E1, E2, E, Hf, Ht. now split.
  - now split.
  - unfold tick. rewrite Ht. destruct k; simpl; now split.
  - rewrite Hf. now split.
Qed.

Lemma nothing_accepted_witness :
  let p := destructure {| maxFiles_prop := Some 0; maxSizeMB_prop := None;
                          allowedFileTypes_prop := None;
                          isProcessing_prop := None |} in
  files (run p initial [ProcessFiles (Some threePdfs) countingIds]) = [].
Proof.
  intros p.
  apply (nothing_accepted p [ProcessFiles (Some threePdfs) countingIds]).
  left. discriminate.
Defined.

End UploaderBehaviour.

(** ** More of the dashboard: selection, export, prompts *)

Module DashboardBehaviour.
Import Dashboard DashboardFacts.






(** X16.  Choosing a prompt type replaces whatever text was typed by the
    template of that type, which is never empty and differs from type to
    type; Save then reports the chosen type with the text as it stands,
    edits made after the choice included, and closes the dialog.  None of
    this changes the document shown. *)
Theorem prompt_dialog (o : PromptOption) (typed : string) (st : State) :
  promptType (handlePromptSelect (optionValue o) (editPrompt typed st))
  = optionValue o
  /\ Some (promptText (handlePromptSelect (optionValue o)
                                          (editPrompt typed st)))
     = lookup (optionValue o) promptTemplates
  /\ promptText (handlePromptSelect (optionValue o) (editPrompt typed st))
     <> EmptyString
  /\ (forall o',
        promptText (handlePromptSelect (optionValue o') st)
        = promptText (handlePromptSelect (optionValue o) st) -> o' = o)
  /\ fst (handlePromptSave
            (editPrompt typed (handlePromptSelect (optionValue o) st)))
     = (optionValue o, typed)
  /\ promptDialogOpen
       (snd (handlePromptSave
               (editPrompt typed (handlePromptSelect (optionValue o) st))))
     = false
  /\ activeDocument
       (snd (handlePromptSave
               (editPrompt typed (handlePromptSelect (optionValue o) st))))
     = activeDocument st.
Proof.
  split; [reflexivity|].
  split; [destruct o; reflexivity|].
  split; [destruct o; discriminate|].
  split; [intros o'; destruct o, o'; simpl; intros H;
          try reflexivity; discriminate H|].
  repeat split.
Qed.

End DashboardBehaviour.
